(** * Ardent: a script that builds Ardour on Windows (src/ardent.py)

    A shallow embedding of the orchestration script.  The script is a
    straight line of external-process invocations guarded by a few
    existence checks, so the embedding is a small monad that threads the
    outside world (file system, package database), may raise a Python
    exception, and logs every console line and every spawned process.

    What is outside the script is a parameter: the type of worlds, what
    [os.path.isdir] answers in a world, what [subprocess.run] returns and
    how it changes the world, the process environment [os.environ], and the
    platform constants [os.path.sep] and [os.path.pathsep].  The process
    environment is fixed during a run: the script never assigns to it.

    Conventions of the model:
    - a Python [set] of strings is a [gset string]; [list(s)] is
      [elements s], whose order is as unspecified as Python's, and no
      statement below depends on it;
    - a [dict] of strings is a [gmap string string]; [a | b] is [b ∪ a]
      (stdpp's union keeps the left entry, Python's keeps the right one);
    - [subprocess.run] is taken to return a [CompletedProcess] (the
      program exists and its output decodes);
    - the optional colorama initialisation at import time (lines 8-12)
      only changes how the console renders escape codes and is left out. *)

From Stdlib Require Import ZArith Ascii String DecimalString.
From stdpp Require Import gmap strings list fin_maps.

Local Open Scope Z_scope.

(** ** Python string primitives used by the script *)

Module Py.

(** The characters the script splits on and prints. *)
Definition nl : string := String (ascii_of_nat 10) "".
Definition esc : string := String (ascii_of_nat 27) "".

(** [s.split(sep)] for a one-character separator: every occurrence cuts,
    empty pieces are kept, and the result is never empty. *)
Fixpoint split (sep : ascii) (s : string) : list string :=
  match s with
  | EmptyString => [EmptyString]
  | String c s' =>
      if Ascii.eqb c sep then EmptyString :: split sep s'
      else match split sep s' with
           | [] => [String c EmptyString]
           | h :: t => String c h :: t
           end
  end.

(** [sep.join(l)]. *)
Fixpoint join (sep : string) (l : list string) : string :=
  match l with
  | [] => ""
  | x :: l' =>
      match l' with
      | [] => x
      | _ :: _ => x +:+ sep +:+ join sep l'
      end
  end.

(** [l[-1]] on the result of a split (which is never empty). *)
Definition last_item (l : list string) : string := List.last l "".

(** [str(n)] for a Python int. *)
Definition str (n : Z) : string := NilZero.string_of_int (Z.to_int n).

(** [needle in hay], as a proposition. *)
Definition contains (hay needle : string) : Prop :=
  exists pre post, hay = pre +:+ needle +:+ post.

End Py.

(** ** Processes, console and exceptions *)

(** What one call of [subprocess.run] is given: the argument vector and the
    keyword arguments the script uses ([cwd], [env], [stdout=PIPE]). *)
Record Cmd := mkCmd {
  argv : list string;
  cwd : option string;
  env : option (gmap string string);
  stdout_pipe : bool
}.

(** [subprocess.CompletedProcess]: [stdout] is [None] unless it was piped. *)
Record CompletedProcess := mkCompleted {
  returncode : Z;
  stdout : option string
}.

(** Everything observable a run does: a console line, or a spawned process
    together with the exit status it came back with. *)
Inductive Event :=
| EPrint (line : string)
| EExec (c : Cmd) (rc : Z).

(** The exceptions the script can end with. [ArdentError] is the script's
    own class; the other two are built-in ones. *)
Inductive exn :=
| ArdentError (message : string)
| TypeError (message : string)
| AttributeError (message : string).

Inductive outcome (A : Type) :=
| Ok (a : A)
| Raise (e : exn).
Arguments Ok {A} a.
Arguments Raise {A} e.

(** The processes a trace spawned, in order, with and without their status. *)
Fixpoint executed (tr : list Event) : list (Cmd * Z) :=
  match tr with
  | [] => []
  | EPrint _ :: tr' => executed tr'
  | EExec c rc :: tr' => (c, rc) :: executed tr'
  end.

Definition commands (tr : list Event) : list Cmd := map fst (executed tr).

(** The console lines of a trace, in order. *)
Fixpoint printed (tr : list Event) : list string :=
  match tr with
  | [] => []
  | EPrint s :: tr' => s :: printed tr'
  | EExec _ _ :: tr' => printed tr'
  end.

(** Classification of a spawned process by its argument vector. *)
Definition is_clone (c : Cmd) : bool :=
  match argv c with
  | a :: b :: _ => String.eqb a "git" && String.eqb b "clone"
  | _ => false
  end.

Definition is_patch (c : Cmd) : bool :=
  match argv c with
  | a :: _ => String.eqb a "patch"
  | _ => false
  end.

Definition is_install (c : Cmd) : bool :=
  match argv c with
  | a :: b :: _ => String.eqb a "pacman" && String.eqb b "-S"
  | _ => false
  end.

(** The status a Python process ends with: 0 after a normal return, 1 after
    an exception nobody caught. *)
Definition exit_status {A} (o : outcome A) : Z :=
  match o with
  | Ok _ => 0
  | Raise _ => 1
  end.

(** ** The fixed package list (lines 14-113) *)

Definition MINGW_PACKAGES : list string :=
  [ "atk"; "atkmm"; "binutils"; "boost"; "c-ares"; "ca-certificates";
    "cairo"; "cairomm"; "cmake"; "cppunit"; "crt-git"; "curl"; "dlfcn";
    "docbook-xsl"; "fftw"; "flac"; "fontconfig"; "freetype"; "gcc";
    "gcc-libs"; "gcc-objc"; "gdb"; "gdb-multiarch"; "gdk-pixbuf2";
    "gettext"; "glib2"; "glibmm"; "gnome-common"; "gnutls";
    "gobject-introspection"; "gtk-doc"; "gtk2"; "gtkmm"; "harfbuzz";
    "headers-git"; "icu"; "jasper"; "jbigkit"; "ladspa-sdk"; "libgccjit";
    "libidn"; "libjpeg-turbo"; "libmangle-git"; "libogg"; "libpng";
    "libsamplerate"; "libsigc++"; "libsndfile"; "libssh2"; "libtiff";
    "libusb"; "libvorbis"; "libxml2"; "libwinpthread-git"; "lld"; "lua";
    "make"; "meson"; "nasm"; "pango"; "pangomm"; "pcre"; "perl"; "pixman";
    "pkgconf"; "portaudio"; "python"; "python-setuptools"; "rtmpdump-git";
    "rubberband"; "shared-mime-info"; "soundtouch"; "taglib"; "tools-git";
    "vamp-plugin-sdk"; "wget"; "wineditline"; "winpthreads-git";
    "winstorecompat-git" ].

Definition MSYS_PACKAGES : list string :=
  [ "autoconf"; "autogen"; "automake-wrapper"; "bison"; "dos2unix"; "flex";
    "git"; "gnome-doc-utils"; "gtk-doc"; "intltool"; "libgnutls-devel";
    "libtool"; "libutil-linux-devel"; "msys2-runtime-devel"; "patch";
    "pkgconf" ].

(** The list the [set(...)] call is given, before deduplication. *)
Definition SYSTEM_DEPENDENCIES_list : list string :=
  map (fun x => "mingw-w64-x86_64-" +:+ x) MINGW_PACKAGES ++ MSYS_PACKAGES.

Definition SYSTEM_DEPENDENCIES : gset string :=
  list_to_set SYSTEM_DEPENDENCIES_list.

(** A positional argument of a wrapper: the wrappers look at [args[0]] and
    use it only when it is a list. *)
Inductive PyArg :=
| ArgList (l : list string)
| ArgStr (s : string).

(** ** A small simulated machine

    A concrete outside world to run the script on: the directories that
    exist, the packages pacman reports, and the argument vectors that exit
    with status 1.  [git clone] creates the checkout directory, [meson
    setup build] creates the build directory, [pacman -S] installs. *)

Module Sim.

Record World := mkWorld {
  dirs : list string;
  installed : list string;
  failing : list (list string)
}.

Definition isdir (w : World) (p : string) : bool := bool_decide (p ∈ dirs w).

Definition in_dir (c : Cmd) (name : string) : string :=
  match cwd c with
  | Some d => d +:+ "/" +:+ name
  | None => name
  end.

Definition subprocess_run (c : Cmd) (w : World) : Z * string * World :=
  if bool_decide (argv c ∈ failing w) then (1, "", w)
  else
    match argv c with
    | [a; b; _; url] =>
        if bool_decide (a = "git" ∧ b = "clone") then
          (0, "", mkWorld (dirs w ++ [in_dir c (Py.last_item (Py.split "/" url))])
                          (installed w) (failing w))
        else (0, "", w)
    | [a; b; d] =>
        if bool_decide (a = "meson" ∧ b = "setup") then
          (0, "", mkWorld (dirs w ++ [in_dir c d]) (installed w) (failing w))
        else (0, "", w)
    | [a; b] =>
        if bool_decide (a = "pacman" ∧ b = "-Qq") then
          (0, String.concat "" (map (fun p => p +:+ Py.nl) (installed w)), w)
        else (0, "", w)
    | a :: b :: _ :: _ :: pkgs =>
        if bool_decide (a = "pacman" ∧ b = "-S") then
          (0, "", mkWorld (dirs w) (installed w ++ pkgs) (failing w))
        else (0, "", w)
    | _ => (0, "", w)
    end.

(** A machine on which nothing has been done yet, and one where only the
    named argument vectors fail. *)
Definition fresh : World := mkWorld [] [] [].
Definition fresh_failing (bad : list (list string)) : World := mkWorld [] [] bad.

(** The process environments used in the examples. *)
Definition environ_ok : gmap string string :=
  {[ "MSYSTEM" := "MINGW64"; "PKG_CONFIG_PATH" := "/mingw64/lib/pkgconfig" ]}.
Definition environ_no_pkg_config : gmap string string :=
  {[ "MSYSTEM" := "MINGW64" ]}.
Definition environ_wrong_shell : gmap string string :=
  {[ "MSYSTEM" := "MSYS"; "PKG_CONFIG_PATH" := "/mingw64/lib/pkgconfig" ]}.

End Sim.

(** ** The script *)

Declare Scope script_scope.
Delimit Scope script_scope with script.

Section Script.

(** The outside world and the platform constants the script reads. *)
Context {World : Type}.
Variable isdir : World -> string -> bool.                  (* os.path.isdir *)
Variable subprocess_run : Cmd -> World -> Z * string * World.
Variable environ : gmap string string.                     (* os.environ *)
Variable sep : string.                                     (* os.path.sep *)
Variable pathsep : string.                                 (* os.path.pathsep *)

(** *** The monad: world passing, exceptions, and a log *)

Record Res (A : Type) := mkRes {
  out : outcome A;
  final : World;
  trace : list Event
}.
Arguments mkRes {A} _ _ _.
Arguments out {A} _.
Arguments final {A} _.
Arguments trace {A} _.

Definition M (A : Type) : Type := World -> Res A.

Definition ret {A} (a : A) : M A := fun w => mkRes (Ok a) w [].

Definition raise {A} (e : exn) : M A := fun w => mkRes (Raise e) w [].

Definition bind {A B} (m : M A) (k : A -> M B) : M B := fun w =>
  let r := m w in
  match out r with
  | Ok a =>
      let r' := k a (final r) in
      mkRes (out r') (final r') (trace r ++ trace r')
  | Raise e => mkRes (Raise e) (final r) (trace r)
  end.

Notation "x <- m ;; k" := (bind m (fun x => k))
  (at level 100, m at next level, right associativity) : script_scope.
Notation "m ;; k" := (bind m (fun _ => k))
  (at level 100, right associativity) : script_scope.
Local Open Scope script_scope.

(** [print(line)]. *)
Definition print (line : string) : M unit := fun w => mkRes (Ok tt) w [EPrint line].

(** [os.path.isdir(path)]. *)
Definition path_isdir (path : string) : M bool := fun w => mkRes (Ok (isdir w path)) w [].

(** [subprocess.run(argv, cwd=, env=, stdout=, encoding='utf8')]. *)
Definition spawn (c : Cmd) : M CompletedProcess := fun w =>
  let '(rc, output, w') := subprocess_run c w in
  mkRes (Ok (mkCompleted rc (if stdout_pipe c then Some output else None)))
        w' [EExec c rc].

(** [os.getenv(name)]. *)
Definition getenv (name : string) : option string := environ !! name.

(** [try: m except ArdentError as e: handler(e); raise]. *)
Definition except_ArdentError_reraise {A} (m : M A) (handler : string -> M unit) : M A :=
  fun w =>
    let r := m w in
    match out r with
    | Raise (ArdentError message) =>
        let r' := handler message (final r) in
        match out r' with
        | Ok _ => mkRes (Raise (ArdentError message)) (final r') (trace r ++ trace r')
        | Raise e' => mkRes (Raise e') (final r') (trace r ++ trace r')
        end
    | _ => r
    end.

(** *** Lines 121-160: console, process runner, fetcher, waf and autotools *)

Definition colored (message color : string) : string :=
  Py.esc +:+ "[" +:+ color +:+ "m" +:+ message +:+ Py.esc +:+ "[0m".

Definition status (message : string) (color : string) : M unit :=
  print (colored message color).

Definition failure_message (rc : Z) (command_line : string) : string :=
  Py.nl +:+ "Failed to run subprocess (exit code " +:+ Py.str rc +:+ "):"
    +:+ Py.nl +:+ command_line.

Definition run (args0 : list string) (cwd : option string)
    (env : option (gmap string string)) (pipe : bool) : M CompletedProcess :=
  let command_line := Py.join " " args0 in
  status ("> " +:+ command_line) "94" ;;
  out <- spawn (mkCmd args0 cwd env pipe) ;;
  if negb (returncode out =? 0) then
    raise (ArdentError (failure_message (returncode out) command_line))
  else ret out.

Definition clone (url : string) (target_dir : string) : M bool :=
  present <- path_isdir (target_dir +:+ sep +:+ Py.last_item (Py.split "/" url)) ;;
  if negb present then
    run ["git"; "clone"; "--recurse-submodules"; url] (Some target_dir) None false ;;
    ret true
  else ret false.

Definition patch (patch_name : string) : M unit :=
  run ["patch"; "-i"; "patches/" +:+ patch_name; "-p0"] None None false ;;
  ret tt.

(** [len(args) > 0 and type(args[0]) is list] selects [args[0]]. *)
Definition first_list (args : list PyArg) : list string :=
  match args with
  | ArgList l :: _ => l
  | _ => []
  end.

Definition waf (args : list PyArg) (cwd : string) (waf : string)
    (env : gmap string string) (c cxx : bool) : M unit :=
  let options := ["python3"; waf; "configure"; "build"; "install"; "--prefix=/mingw64"] in
  let options := if c then options ++ ["--check-c-compiler=gcc"] else options in
  let options := if cxx then options ++ ["--check-cxx-compiler=g++"] else options in
  let options := options ++ first_list args in
  run options (Some cwd) (Some (env ∪ environ)) false ;;
  ret tt.

Definition ac (cwd : string) : M unit :=
  run ["sh"; "./autogen.sh"] (Some cwd)
      (Some ({[ "ACLOCAL_PATH" := "/usr/share/aclocal" ]} ∪ environ)) false ;;
  run ["make"; "install"] (Some cwd) None false ;;
  ret tt.

(** *** Lines 162-177: meson wrapper and the shell check *)

Definition meson (args : list PyArg) (cwd : string) : M unit :=
  let build := cwd +:+ sep +:+ "build" in
  present <- path_isdir build ;;
  (if negb present then
     run ["meson"; "setup"; "build"] (Some cwd) None false ;; ret tt
   else ret tt) ;;
  let options := ["meson"; "configure"] in
  let options := options ++ first_list args in
  run options (Some build) None false ;;
  run ["meson"; "compile"] (Some build) None false ;;
  run ["meson"; "install"] (Some build) None false ;;
  ret tt.

Definition shell_message : string :=
  "Ardent should be executed from a MSYS2 shell. If you don't have MSYS2, you can install it from https://www.msys2.org/.".

Definition check_shell : M unit :=
  if bool_decide (getenv "MSYSTEM" ≠ Some "MINGW64") then
    raise (ArdentError shell_message)
  else ret tt.

(** *** Lines 179-189: the package installer *)

Definition install_package_deps : M unit :=
  status "Checking packages..." "96" ;;
  query <- run ["pacman"; "-Qq"] None None true ;;
  match stdout query with
  | None => raise (AttributeError "'NoneType' object has no attribute 'split'")
  | Some text =>
      let packages : gset string := list_to_set (Py.split (ascii_of_nat 10) text) in
      let to_install := SYSTEM_DEPENDENCIES ∖ packages in
      if bool_decide (to_install ≠ ∅) then
        status "Installing required dependencies..." "96" ;;
        run (["pacman"; "-S"; "--noconfirm"; "--needed"] ++ elements to_install)
            None None false ;;
        status "Installed all required system dependencies." "96"
      else
        status "All system dependencies have already been installed." "96"
  end.

(** *** Lines 191-207: the repository fetcher *)

Definition fetch_libraries : M unit :=
  status "Fetching libraries..." "96" ;;
  clone "https://github.com/jackaudio/jack2" "deps" ;;
  cloned <- clone "https://github.com/aubio/aubio" "deps" ;;
  (if cloned : bool then patch "aubio_priv.h.patch" else ret tt) ;;
  clone "https://github.com/radarsat1/liblo" "deps" ;;
  clone "https://github.com/x42/libltc" "deps" ;;
  cloned <- clone "https://github.com/swh/LRDF" "deps" ;;
  (if cloned : bool then patch "lrdf_types.h.patch" else ret tt) ;;
  cloned <- clone "https://github.com/dajobe/raptor" "deps" ;;
  (if cloned : bool then patch "sort_r.h.patch" else ret tt) ;;
  cloned <- clone "https://github.com/lv2/lv2kit" "deps" ;;
  (if cloned : bool then patch "win_in_gtk2.cpp.patch" else ret tt) ;;
  cloned <- clone "git://git.ardour.org/ardour/ardour" "deps" ;;
  (if cloned : bool then
     patch "ardour-wscript.patch" ;;
     patch "main.cc.patch" ;;
     patch "pbd.cc.patch"
   else ret tt).

(** *** Lines 209-240: the builds *)

Definition build_libraries : M unit :=
  status "Building libraries..." "96" ;;
  waf [] "deps/jack2" "waf" ∅ true true ;;
  ac "deps/liblo" ;;
  ac "deps/libltc" ;;
  ac "deps/raptor" ;;
  ac "deps/LRDF" ;;
  meson [ArgList ["-Dcxx=true"]] "deps/lv2kit" ;;
  waf [ArgList ["--disable-tests"]] "deps/aubio" "../ardour/waf" ∅ true false.

Definition ARDOUR_OPTIONS : list string :=
  [ "--prefix=/mingw64"; "--configdir=/share"; "--check-c-compiler=gcc";
    "--check-cxx-compiler=g++"; "--dist-target=mingw"; "--no-dr-mingw";
    "--use-lld"; "--optimize"; "--exports-hidden"; "--windows-vst" ].

Definition none_plus_str : string :=
  "unsupported operand type(s) for +: 'NoneType' and 'str'".

Definition build_ardour : M unit :=
  status "Building Ardour..." "96" ;;
  match getenv "PKG_CONFIG_PATH" with
  | None => raise (TypeError none_plus_str)
  | Some path =>
      waf [ArgList ARDOUR_OPTIONS] "deps/ardour" "waf"
          {[ "PKG_CONFIG_PATH" := path +:+ pathsep +:+ "C:\mingw64\lib\pkgconfig" ]}
          true true
  end.

(** *** Lines 242-254: the entry point *)

Definition main : M unit :=
  check_shell ;;
  install_package_deps ;;
  fetch_libraries ;;
  build_libraries ;;
  build_ardour.

(** The [if __name__ == "__main__"] block. *)
Definition script : M unit :=
  except_ArdentError_reraise main (fun message => status message "91").


(** ** Vocabulary for the properties *)

(** *** The command lines the script can issue *)

Definition query_cmd : Cmd := mkCmd ["pacman"; "-Qq"] None None true.

Definition install_cmd (pkgs : list string) : Cmd :=
  mkCmd (["pacman"; "-S"; "--noconfirm"; "--needed"] ++ pkgs) None None false.

Definition clone_cmd (url target_dir : string) : Cmd :=
  mkCmd ["git"; "clone"; "--recurse-submodules"; url] (Some target_dir) None false.

Definition patch_cmd (patch_name : string) : Cmd :=
  mkCmd ["patch"; "-i"; "patches/" +:+ patch_name; "-p0"] None None false.

Definition waf_cmd (args : list PyArg) (cwd waf : string)
    (env : gmap string string) (c cxx : bool) : Cmd :=
  mkCmd (["python3"; waf; "configure"; "build"; "install"; "--prefix=/mingw64"]
           ++ (if c then ["--check-c-compiler=gcc"] else [])
           ++ (if cxx then ["--check-cxx-compiler=g++"] else [])
           ++ first_list args)
        (Some cwd) (Some (env ∪ environ)) false.

Definition ac_cmds (cwd : string) : list Cmd :=
  [ mkCmd ["sh"; "./autogen.sh"] (Some cwd)
          (Some ({[ "ACLOCAL_PATH" := "/usr/share/aclocal" ]} ∪ environ)) false;
    mkCmd ["make"; "install"] (Some cwd) None false ].

Definition meson_setup_cmd (cwd : string) : Cmd :=
  mkCmd ["meson"; "setup"; "build"] (Some cwd) None false.

Definition meson_steps (args : list PyArg) (cwd : string) : list Cmd :=
  let build := cwd +:+ sep +:+ "build" in
  [ mkCmd (["meson"; "configure"] ++ first_list args) (Some build) None false;
    mkCmd ["meson"; "compile"] (Some build) None false;
    mkCmd ["meson"; "install"] (Some build) None false ].

(** What the meson wrapper issues when the build directory is, or is
    not, [present] on entry. *)
Definition meson_cmds (present : bool) (args : list PyArg) (cwd : string) : list Cmd :=
  (if present then [] else [meson_setup_cmd cwd]) ++ meson_steps args cwd.

(** The builds of the seven libraries, per dependency, in the order
    [build_libraries] lists them; [present] is whether lv2kit's build
    directory exists when its build starts. *)
Definition jack2_build : list Cmd := [waf_cmd [] "deps/jack2" "waf" ∅ true true].
Definition liblo_build : list Cmd := ac_cmds "deps/liblo".
Definition libltc_build : list Cmd := ac_cmds "deps/libltc".
Definition raptor_build : list Cmd := ac_cmds "deps/raptor".
Definition LRDF_build : list Cmd := ac_cmds "deps/LRDF".
Definition lv2kit_build (present : bool) : list Cmd :=
  meson_cmds present [ArgList ["-Dcxx=true"]] "deps/lv2kit".
Definition aubio_build : list Cmd :=
  [waf_cmd [ArgList ["--disable-tests"]] "deps/aubio" "../ardour/waf" ∅ true false].

Definition library_builds (present : bool) : list Cmd :=
  jack2_build ++ liblo_build ++ libltc_build ++ raptor_build ++ LRDF_build
    ++ lv2kit_build present ++ aubio_build.

Definition ardour_build (path : string) : list Cmd :=
  [waf_cmd [ArgList ARDOUR_OPTIONS] "deps/ardour" "waf"
     {[ "PKG_CONFIG_PATH" := path +:+ pathsep +:+ "C:\mingw64\lib\pkgconfig" ]}
     true true].

(** A build-tool invocation is one of the programs the three wrappers
    start: waf through python3, autogen through sh, make, meson. *)
Definition is_build (c : Cmd) : bool :=
  match argv c with
  | a :: _ =>
      String.eqb a "python3" || String.eqb a "sh" || String.eqb a "make"
        || String.eqb a "meson"
  | [] => false
  end.

(** *** The fetch list as a table *)

(** Each call of [clone] in [fetch_libraries] with the patches applied
    when it returns [True], in source order. *)
Definition FETCH_LIST : list (string * list string) :=
  [ ("https://github.com/jackaudio/jack2", []);
    ("https://github.com/aubio/aubio", ["aubio_priv.h.patch"]);
    ("https://github.com/radarsat1/liblo", []);
    ("https://github.com/x42/libltc", []);
    ("https://github.com/swh/LRDF", ["lrdf_types.h.patch"]);
    ("https://github.com/dajobe/raptor", ["sort_r.h.patch"]);
    ("https://github.com/lv2/lv2kit", ["win_in_gtk2.cpp.patch"]);
    ("git://git.ardour.org/ardour/ardour",
     ["ardour-wscript.patch"; "main.cc.patch"; "pbd.cc.patch"]) ].

Fixpoint patch_all (names : list string) : M unit :=
  match names with
  | [] => ret tt
  | n :: names' => patch n ;; patch_all names'
  end.

(** One entry of the table: [if clone(url, "deps"): patch(...)...]. *)
Definition fetch_one (d : string * list string) : M unit :=
  cloned <- clone (fst d) "deps" ;;
  if cloned : bool then patch_all (snd d) else ret tt.

Fixpoint fetch_all (l : list (string * list string)) : M unit :=
  match l with
  | [] => ret tt
  | d :: l' => fetch_one d ;; fetch_all l'
  end.

(** The directory [clone] looks for. *)
Definition checkout_dir (url target_dir : string) : string :=
  target_dir +:+ sep +:+ Py.last_item (Py.split "/" url).

(** *** Second-run conditions *)

(** Every checkout and lv2kit's build directory exist. *)
Definition all_present (w : World) : bool :=
  forallb (fun d => isdir w (checkout_dir (fst d) "deps")) FETCH_LIST
    && isdir w ("deps/lv2kit" +:+ sep +:+ "build").

(** What [pacman -Qq] prints on [w], as the set the installer builds. *)
Definition installed_packages (w : World) : gset string :=
  list_to_set (Py.split (ascii_of_nat 10) (subprocess_run query_cmd w).1.2).

Definition all_installed (w : World) : bool :=
  bool_decide (SYSTEM_DEPENDENCIES ⊆ installed_packages w).



(** *** Runs that stop at the first failure *)

Definition all_ok (L : list Cmd) : list (Cmd * Z) := map (fun c => (c, 0)) L.

(** [runs_of L ex]: the processes [ex] are the commands of [L] started in
    order, each one only after all the earlier ones exited with status 0;
    after a non-zero status nothing more is started. *)
Inductive runs_of : list Cmd -> list (Cmd * Z) -> Prop :=
| runs_stop cs : runs_of cs []
| runs_ok c cs ex : runs_of cs ex -> runs_of (c :: cs) ((c, 0) :: ex)
| runs_fail c cs rc : rc ≠ 0 -> runs_of (c :: cs) [(c, rc)].

(** A result follows a command list when its processes are such a run and
    a normal return means the whole list ran. *)
Record follows {A} (r : Res A) (L : list Cmd) : Prop := mkFollows {
  follows_runs : runs_of L (executed (trace r));
  follows_ok : forall a, out r = Ok a -> executed (trace r) = all_ok L
}.

(** A result is disciplined when a non-zero exit status can only be that
    of the last process, and is then reported by the matching
    [ArdentError]. *)
Definition disciplined {A} (r : Res A) : Prop :=
  forall c rc, In (c, rc) (executed (trace r)) -> rc ≠ 0 ->
    out r = Raise (ArdentError (failure_message rc (Py.join " " (argv c))))
    ∧ exists tr, trace r = tr ++ [EExec c rc].

(** Worlds reachable through external commands. *)
Inductive reach : World -> World -> Prop :=
| reach_refl w : reach w w
| reach_step w w' c : reach w w' -> reach w (subprocess_run c w').2.

(** Computations built from the primitives of the script, all of whose
    commands satisfy [P]. *)
Inductive Built (P : Cmd -> Prop) : forall {A}, M A -> Prop :=
| Built_ret A (a : A) : Built P (ret a)
| Built_raise A e : Built P (@raise A e)
| Built_status message color : Built P (status message color)
| Built_isdir path : Built P (path_isdir path)
| Built_run args0 cwd env pipe :
    P (mkCmd args0 cwd env pipe) -> Built P (run args0 cwd env pipe)
| Built_bind A B (m : M A) (k : A -> M B) :
    Built P m -> (forall a, Built P (k a)) -> Built P (bind m k).

(** The steps of [main] that come before the application build. *)
Definition main_before_ardour : M unit :=
  check_shell ;;
  install_package_deps ;;
  fetch_libraries ;;
  build_libraries.

(** A result that raises only because some process exited non-zero. *)
Definition fails_only_by_exit {A} (r : Res A) : Prop :=
  forall e, out r = Raise e ->
    exists c rc, In (c, rc) (executed (trace r)) ∧ rc ≠ 0.

(** ** Vocabulary for the further properties *)

(** A trace in which every process comes right after the console line
    that announces its command line in colour 94. *)
Inductive announced : list Event -> Prop :=
| announced_nil : announced []
| announced_print line tr : announced tr -> announced (EPrint line :: tr)
| announced_exec c rc tr :
    announced tr ->
    announced (EPrint (colored ("> " +:+ Py.join " " (argv c)) "94")
                 :: EExec c rc :: tr).

(** What the fetcher starts when the existence checks of the entries
    answer [bs], in order: nothing for an entry that is present, the clone
    and then the patches of an entry that is absent. *)
Fixpoint fetch_plan (bs : list bool) (l : list (string * list string)) : list Cmd :=
  match bs, l with
  | b :: bs', d :: l' =>
      (if b then [] else clone_cmd (fst d) "deps" :: map patch_cmd (snd d))
        ++ fetch_plan bs' l'
  | _, _ => []
  end.

(** The world left by running the commands in order, stopping after the
    first one that exits with a non-zero status. *)
Fixpoint run_commands (cs : list Cmd) (w : World) : World :=
  match cs with
  | [] => w
  | c :: cs' =>
      if (subprocess_run c w).1.1 =? 0
      then run_commands cs' (subprocess_run c w).2
      else (subprocess_run c w).2
  end.

(** The directory names of the checkouts, in the order of the fetch list. *)
Definition CHECKOUT_NAMES : list string :=
  ["jack2"; "aubio"; "liblo"; "libltc"; "LRDF"; "raptor"; "lv2kit"; "ardour"].

(** The answers of the existence checks of the fetcher started in [w]:
    the first entry is looked for in [w] itself, each later one in the
    world left by the commands of the entries before it. *)
Fixpoint fetch_answers (names : list string) (l : list (string * list string))
    (w : World) : list bool :=
  match names, l with
  | name :: names', d :: l' =>
      let b := isdir w ("deps" +:+ sep +:+ name) in
      b :: fetch_answers names' l'
             (run_commands
                (if b then [] else clone_cmd (fst d) "deps" :: map patch_cmd (snd d)) w)
  | _, _ => []
  end.

(** Whether a character occurs in a string. *)
Fixpoint has_char (c : ascii) (s : string) : bool :=
  match s with
  | EmptyString => false
  | String x s' => Ascii.eqb x c || has_char c s'
  end.

(** [p] is one of the pieces that the character [ch] cuts [text] into: it
    does not contain [ch], and it sits in [text] between the start or a
    [ch] and a [ch] or the end. *)
Definition is_piece (ch : ascii) (p text : string) : Prop :=
  has_char ch p = false
  ∧ exists before after,
      text = before +:+ p +:+ after
      ∧ (before = "" ∨ exists b, before = b +:+ String ch "")
      ∧ (after = "" ∨ exists a, after = String ch a).

(** [p] is a line of [text]: a piece between newlines. *)
Definition is_line (p text : string) : Prop := is_piece "010" p text.

(** The commands of the package installer. *)
Definition is_pacman (c : Cmd) : Prop :=
  c = query_cmd ∨ exists pkgs, c = install_cmd pkgs.

(** The commands of the fetcher: the clone of a listed URL into deps, or
    one of the listed patches. *)
Definition is_fetch (c : Cmd) : Prop :=
  (exists url, In url (map fst FETCH_LIST) ∧ c = clone_cmd url "deps")
  ∨ exists patch_name, In patch_name (concat (map snd FETCH_LIST)) ∧ c = patch_cmd patch_name.

(** The commands of the library builds and of the application build. *)
Definition is_library_build (c : Cmd) : Prop :=
  exists present, In c (library_builds present).

Definition is_ardour_build (c : Cmd) : Prop :=
  exists path, getenv "PKG_CONFIG_PATH" = Some path ∧ In c (ardour_build path).

(** Every command line the script contains. *)
Definition script_command (c : Cmd) : Prop :=
  is_pacman c ∨ is_fetch c ∨ is_library_build c ∨ is_ardour_build c.

(** A result whose exception, if any, is accounted for: the shell error in
    a wrong shell, the TypeError of an unset PKG_CONFIG_PATH, or a process
    that exited non-zero. *)
Definition explained {A} (r : Res A) : Prop :=
  forall e, out r = Raise e ->
    (e = ArdentError shell_message ∧ getenv "MSYSTEM" ≠ Some "MINGW64")
    ∨ (e = TypeError none_plus_str ∧ getenv "PKG_CONFIG_PATH" = None)
    ∨ exists c rc, In (c, rc) (executed (trace r)) ∧ rc ≠ 0.

(** ** Basic facts about traces and the monad *)

Lemma executed_app (t1 t2 : list Event) :
  executed (t1 ++ t2) = executed t1 ++ executed t2.
Proof.
  induction t1 as [|[line|c rc] t1 IH]; simpl; [reflexivity|exact IH|].
  now rewrite IH.
Qed.

Lemma commands_app (t1 t2 : list Event) :
  commands (t1 ++ t2) = commands t1 ++ commands t2.
Proof. unfold commands. now rewrite executed_app, map_app. Qed.

Lemma Res_eta {A} (r : Res A) : mkRes (out r) (final r) (trace r) = r.
Proof. now destruct r. Qed.

Lemma bind_Ok {A B} (m : M A) (k : A -> M B) w a :
  out (m w) = Ok a ->
  bind m k w =
    mkRes (out (k a (final (m w)))) (final (k a (final (m w))))
          (trace (m w) ++ trace (k a (final (m w)))).
Proof. intros H. unfold bind. now rewrite H. Qed.

Lemma bind_Raise {A B} (m : M A) (k : A -> M B) w e :
  out (m w) = Raise e ->
  bind m k w = mkRes (Raise e) (final (m w)) (trace (m w)).
Proof. intros H. unfold bind. now rewrite H. Qed.

Lemma bind_Ok_inv {A B} (m : M A) (k : A -> M B) w b :
  out (bind m k w) = Ok b ->
  exists a, out (m w) = Ok a ∧ out (k a (final (m w))) = Ok b.
Proof.
  unfold bind. destruct (out (m w)) as [a|e] eqn:E; simpl; [|discriminate].
  intros H. now exists a.
Qed.

(** The process runner, in one equation. *)
Lemma run_eq args0 cwd env pipe w :
  run args0 cwd env pipe w =
    let c := mkCmd args0 cwd env pipe in
    let rc := (subprocess_run c w).1.1 in
    mkRes (if rc =? 0
           then Ok (mkCompleted rc (if pipe then Some (subprocess_run c w).1.2 else None))
           else Raise (ArdentError (failure_message rc (Py.join " " args0))))
          (subprocess_run c w).2
          [EPrint (colored ("> " +:+ Py.join " " args0) "94"); EExec c rc].
Proof.
  unfold run, bind, status, print, spawn, raise, ret. simpl.
  destruct (subprocess_run (mkCmd args0 cwd env pipe) w) as [[rc output] w'].
  simpl. now destruct (rc =? 0).
Qed.

Lemma run_executed args0 cwd env pipe w :
  executed (trace (run args0 cwd env pipe w)) =
    [(mkCmd args0 cwd env pipe, (subprocess_run (mkCmd args0 cwd env pipe) w).1.1)].
Proof. now rewrite run_eq. Qed.

Lemma run_final args0 cwd env pipe w :
  final (run args0 cwd env pipe w) = (subprocess_run (mkCmd args0 cwd env pipe) w).2.
Proof. now rewrite run_eq. Qed.

Lemma run_Ok_inv args0 cwd env pipe w r :
  out (run args0 cwd env pipe w) = Ok r ->
  (subprocess_run (mkCmd args0 cwd env pipe) w).1.1 = 0.
Proof.
  rewrite run_eq. simpl.
  destruct ((subprocess_run _ w).1.1 =? 0) eqn:E; [|discriminate].
  intros _. now apply Z.eqb_eq.
Qed.

(** ** What holds of every computation built from the primitives *)

Lemma Built_sat P {A} (m : M A) :
  Built P m -> forall w, Forall P (commands (trace (m w))).
Proof.
  induction 1 as [A a|A e|message color|path|args0 cwd env pipe HP
                 |A B m k _ IHm _ IHk]; intros w;
    try (simpl; constructor; fail).
  - rewrite run_eq. simpl. constructor; [exact HP|constructor].
  - destruct (out (m w)) as [a|e] eqn:E.
    + rewrite (bind_Ok _ _ _ _ E). simpl. rewrite commands_app.
      apply Forall_app. split; [apply IHm|apply IHk].
    + rewrite (bind_Raise _ _ _ _ E). simpl. apply IHm.
Qed.

Lemma reach_trans w1 w2 w3 : reach w1 w2 -> reach w2 w3 -> reach w1 w3.
Proof.
  intros H12 H23. induction H23 as [|w2 w3 c _ IH]; [exact H12|].
  apply reach_step, IH, H12.
Qed.

Lemma Built_reach P {A} (m : M A) :
  Built P m -> forall w, reach w (final (m w)).
Proof.
  induction 1 as [A a|A e|message color|path|args0 cwd env pipe HP
                 |A B m k _ IHm _ IHk]; intros w;
    try (apply reach_refl; fail).
  - rewrite run_final. apply reach_step, reach_refl.
  - destruct (out (m w)) as [a|e] eqn:E.
    + rewrite (bind_Ok _ _ _ _ E). simpl. eapply reach_trans; [apply IHm|apply IHk].
    + rewrite (bind_Raise _ _ _ _ E). simpl. apply IHm.
Qed.

Lemma Built_disciplined P {A} (m : M A) :
  Built P m -> forall w, disciplined (m w).
Proof.
  induction 1 as [A a|A e|message color|path|args0 cwd env pipe HP
                 |A B m k _ IHm _ IHk]; intros w c rc;
    try (simpl; intros []; fail).
  - rewrite run_eq. simpl. intros [Heq|[]] Hrc. inversion Heq; subst c rc.
    apply Z.eqb_neq in Hrc. rewrite Hrc. split; [reflexivity|].
    now exists [EPrint (colored ("> " +:+ Py.join " " args0) "94")].
  - destruct (out (m w)) as [a|e] eqn:E.
    + rewrite (bind_Ok _ _ _ _ E). simpl. rewrite executed_app.
      intros Hin Hrc. apply in_app_or in Hin as [Hin|Hin].
      * destruct (IHm w c rc Hin Hrc) as [Hout _]. congruence.
      * destruct (IHk a (final (m w)) c rc Hin Hrc) as [Hout [tr Htr]].
        split; [exact Hout|]. exists (trace (m w) ++ tr).
        now rewrite Htr, app_assoc.
    + rewrite (bind_Raise _ _ _ _ E). simpl. intros Hin Hrc.
      destruct (IHm w c rc Hin Hrc) as [Hout Htr]. split; [congruence|exact Htr].
Qed.


(** ** The script is built from the primitives *)

Ltac built :=
  repeat first
    [ apply Built_ret | apply Built_raise | apply Built_status
    | apply Built_isdir | apply Built_run | apply Built_bind | intro
    | match goal with
      | |- Built _ (if ?b then _ else _) => destruct b
      | |- Built _ (match ?o with Some _ => _ | None => _ end) => destruct o
      end ].

Lemma Built_check_shell P : Built P check_shell.
Proof. unfold check_shell. built. Qed.

Lemma Built_install_package_deps :
  Built (fun c => c = query_cmd ∨ exists pkgs, c = install_cmd pkgs)
        install_package_deps.
Proof.
  unfold install_package_deps. built.
  - now left.
  - right. now eexists.
Qed.

Lemma Built_clone P url target_dir :
  P (clone_cmd url target_dir) -> Built P (clone url target_dir).
Proof. intros HP. unfold clone. built. exact HP. Qed.

Lemma Built_patch P patch_name :
  P (patch_cmd patch_name) -> Built P (patch patch_name).
Proof. intros HP. unfold patch. built. exact HP. Qed.

Lemma Built_fetch_libraries :
  Built (fun c => is_clone c = true ∨ is_patch c = true) fetch_libraries.
Proof.
  unfold fetch_libraries.
  repeat first
    [ apply Built_clone; left; reflexivity
    | apply Built_patch; right; reflexivity
    | apply Built_ret | apply Built_status | apply Built_bind | intro
    | match goal with |- Built _ (if ?b then _ else _) => destruct b end ].
Qed.

Lemma Built_waf P args cwd waf_ env c cxx :
  P (waf_cmd args cwd waf_ env c cxx) -> Built P (waf args cwd waf_ env c cxx).
Proof.
  intros HP. unfold waf. built.
  revert HP. unfold waf_cmd. now destruct c, cxx.
Qed.

Lemma Built_ac P cwd : Forall P (ac_cmds cwd) -> Built P (ac cwd).
Proof.
  intros HP. unfold ac. inversion HP as [|? ? H1 HP']; subst.
  inversion HP' as [|? ? H2 _]; subst. built; assumption.
Qed.

Lemma Built_meson P args cwd :
  Forall P (meson_cmds false args cwd) -> Built P (meson args cwd).
Proof.
  intros HP. unfold meson. unfold meson_cmds, meson_steps in HP. simpl in HP.
  inversion HP as [|? ? H1 HP1]; subst. inversion HP1 as [|? ? H2 HP2]; subst.
  inversion HP2 as [|? ? H3 HP3]; subst. inversion HP3 as [|? ? H4 _]; subst.
  built; assumption.
Qed.

Lemma Built_build_libraries : Built (fun c => is_build c = true) build_libraries.
Proof.
  unfold build_libraries.
  apply Built_bind; [apply Built_status|intros _].
  apply Built_bind; [apply Built_waf; reflexivity|intros _].
  do 4 (apply Built_bind; [apply Built_ac; repeat constructor|intros _]).
  apply Built_bind; [apply Built_meson; repeat constructor|intros _].
  apply Built_waf; reflexivity.
Qed.

Lemma Built_build_ardour : Built (fun c => is_build c = true) build_ardour.
Proof.
  unfold build_ardour. apply Built_bind; [apply Built_status|intros _].
  destruct (getenv "PKG_CONFIG_PATH"); [|apply Built_raise].
  apply Built_waf. reflexivity.
Qed.

Lemma Built_weaken (P Q : Cmd -> Prop) {A} (m : M A) :
  (forall c, P c -> Q c) -> Built P m -> Built Q m.
Proof.
  intros HPQ H. induction H; try (constructor; fail).
  - apply Built_run. now apply HPQ.
  - apply Built_bind; assumption.
Qed.

Lemma Built_main : Built (fun _ => True) main.
Proof.
  unfold main.
  apply Built_bind; [apply Built_check_shell|intros _].
  apply Built_bind;
    [eapply Built_weaken; [|apply Built_install_package_deps]; trivial|intros _].
  apply Built_bind;
    [eapply Built_weaken; [|apply Built_fetch_libraries]; trivial|intros _].
  apply Built_bind;
    [eapply Built_weaken; [|apply Built_build_libraries]; trivial|intros _].
  eapply Built_weaken; [|apply Built_build_ardour]; trivial.
Qed.

(** ** Runs that stop at the first failure *)

Lemma runs_of_all_ok L : runs_of L (all_ok L).
Proof. induction L as [|c L IH]; [apply runs_stop|now apply runs_ok]. Qed.

Lemma runs_of_app_ok L1 L2 ex :
  runs_of L2 ex -> runs_of (L1 ++ L2) (all_ok L1 ++ ex).
Proof. intros H. induction L1 as [|c L1 IH]; [exact H|now apply runs_ok]. Qed.

Lemma runs_of_app_l L1 L2 ex : runs_of L1 ex -> runs_of (L1 ++ L2) ex.
Proof.
  induction 1 as [cs|c cs ex _ IH|c cs rc Hrc]; simpl.
  - apply runs_stop.
  - now apply runs_ok.
  - now apply runs_fail.
Qed.

Lemma runs_of_prefix L ex : runs_of L ex -> map fst ex `prefix_of` L.
Proof.
  induction 1 as [cs|c cs ex _ IH|c cs rc Hrc]; simpl.
  - apply prefix_nil.
  - now apply prefix_cons.
  - apply prefix_cons, prefix_nil.
Qed.


Lemma prefix_of_not_In {X} (x : X) (l1 l2 : list X) :
  l1 `prefix_of` l2 -> ~ In x l2 -> ~ In x l1.
Proof. intros [k ->] H Hin. apply H, in_or_app. now left. Qed.

Lemma commands_all_ok tr L : executed tr = all_ok L -> commands tr = L.
Proof.
  unfold commands, all_ok. intros ->. rewrite map_map. simpl. apply map_id.
Qed.

(** ** Following a command list *)

Lemma follows_eq {A} (r : Res A) L L' : follows r L -> L = L' -> follows r L'.
Proof. now intros H <-. Qed.

Lemma follows_silent {A} (r : Res A) : executed (trace r) = [] -> follows r [].
Proof. intros H. split; rewrite H; [apply runs_stop|reflexivity]. Qed.

Lemma follows_run args0 cwd env pipe w :
  follows (run args0 cwd env pipe w) [mkCmd args0 cwd env pipe].
Proof.
  split.
  - rewrite run_executed.
    destruct (Z.eq_dec (subprocess_run (mkCmd args0 cwd env pipe) w).1.1 0) as [->|Hrc].
    + apply runs_ok, runs_stop.
    + now apply runs_fail.
  - intros r Hr. rewrite run_executed. now rewrite (run_Ok_inv _ _ _ _ _ _ Hr).
Qed.

Lemma follows_bind {A B} (m : M A) (k : A -> M B) w L1 L2 :
  follows (m w) L1 ->
  (forall a, out (m w) = Ok a -> follows (k a (final (m w))) L2) ->
  follows (bind m k w) (L1 ++ L2).
Proof.
  intros [Hr1 Ho1] Hk. destruct (out (m w)) as [a|e] eqn:E.
  - rewrite (bind_Ok _ _ _ _ E). destruct (Hk a eq_refl) as [Hr2 Ho2].
    split; simpl; rewrite executed_app, (Ho1 a eq_refl).
    + now apply runs_of_app_ok.
    + intros b Hb. rewrite (Ho2 b Hb). unfold all_ok. now rewrite map_app.
  - rewrite (bind_Raise _ _ _ _ E). split; simpl.
    + now apply runs_of_app_l.
    + discriminate.
Qed.

Lemma bind_isdir {B} path (k : bool -> M B) w :
  bind (path_isdir path) k w = k (isdir w path) w.
Proof. unfold bind, path_isdir. simpl. apply Res_eta. Qed.

Lemma bind_status {B} message color (k : unit -> M B) w :
  bind (status message color) k w =
    mkRes (out (k tt w)) (final (k tt w)) (EPrint (colored message color) :: trace (k tt w)).
Proof. reflexivity. Qed.

Lemma follows_status_bind {B} message color (k : unit -> M B) w L :
  follows (k tt w) L -> follows (bind (status message color) k w) L.
Proof. intros [Hr Ho]. rewrite bind_status. now split. Qed.

(** Chains of process runs follow the list of their commands. *)
Ltac follow :=
  repeat first
    [ apply follows_run
    | apply follows_status_bind
    | apply follows_silent; reflexivity
    | eapply follows_bind; [|intros ? _] ].

Lemma follows_patch patch_name w : follows (patch patch_name w) [patch_cmd patch_name].
Proof. unfold patch. eapply follows_eq; [follow|reflexivity]. Qed.

Lemma waf_eq args cwd waf_ env c cxx w :
  waf args cwd waf_ env c cxx w =
    bind (run (argv (waf_cmd args cwd waf_ env c cxx)) (Some cwd) (Some (env ∪ environ)) false)
         (fun _ => ret tt) w.
Proof. now destruct c, cxx. Qed.

Lemma follows_waf args cwd waf_ env c cxx w :
  follows (waf args cwd waf_ env c cxx w) [waf_cmd args cwd waf_ env c cxx].
Proof. rewrite waf_eq. eapply follows_eq; [follow|reflexivity]. Qed.

Lemma follows_ac cwd w : follows (ac cwd w) (ac_cmds cwd).
Proof. unfold ac. eapply follows_eq; [follow|reflexivity]. Qed.

Lemma follows_meson args cwd w :
  follows (meson args cwd w) (meson_cmds (isdir w (cwd +:+ sep +:+ "build")) args cwd).
Proof.
  unfold meson. rewrite bind_isdir.
  destruct (isdir w (cwd +:+ sep +:+ "build")); simpl;
    (eapply follows_eq; [follow|reflexivity]).
Qed.

Lemma follows_build_ardour w :
  follows (build_ardour w)
    (match getenv "PKG_CONFIG_PATH" with Some path => ardour_build path | None => [] end).
Proof.
  unfold build_ardour. apply follows_status_bind.
  destruct (getenv "PKG_CONFIG_PATH") as [path|].
  - apply follows_waf.
  - now apply follows_silent.
Qed.

Lemma follows_build_libraries w :
  exists w', reach w w'
    ∧ follows (build_libraries w)
        (library_builds (isdir w' ("deps/lv2kit" +:+ sep +:+ "build"))).
Proof.
  eexists. split; cycle 1.
  - unfold build_libraries, library_builds. apply follows_status_bind.
    eapply follows_bind; [apply follows_waf|intros ? _].
    do 4 (eapply follows_bind; [apply follows_ac|intros ? _]).
    eapply follows_bind; [apply follows_meson|intros ? _].
    apply follows_waf.
  - do 4 (eapply reach_trans;
            [|apply (Built_reach (fun _ => True)), Built_ac; repeat constructor]).
    apply (Built_reach (fun _ => True)), Built_waf. exact I.
Qed.

(** ** Monad laws, pointwise *)

Lemma bind_assoc {A B C} (m : M A) (f : A -> M B) (g : B -> M C) w :
  bind (bind m f) g w = bind m (fun a => bind (f a) g) w.
Proof.
  unfold bind. destruct (m w) as [[a|e] w1 t1]; simpl; [|reflexivity].
  destruct (f a w1) as [[b|e] w2 t2]; simpl; [|reflexivity].
  now rewrite app_assoc.
Qed.

Lemma bind_ext {A B} (m : M A) (f f' : A -> M B) w :
  (forall a w', f a w' = f' a w') -> bind m f w = bind m f' w.
Proof. intros H. unfold bind. destruct (out (m w)); [now rewrite H|reflexivity]. Qed.

Lemma bind_ret_l {A B} (a : A) (k : A -> M B) w : bind (ret a) k w = k a w.
Proof. unfold bind, ret. simpl. apply Res_eta. Qed.

Lemma bind_ret_tt (m : M unit) w : bind m (fun _ => ret tt) w = m w.
Proof.
  unfold bind, ret. destruct (m w) as [[[]|e] w1 t1]; simpl; [|reflexivity].
  now rewrite app_nil_r.
Qed.

Lemma main_split w : main w = bind main_before_ardour (fun _ => build_ardour) w.
Proof.
  unfold main, main_before_ardour.
  rewrite bind_assoc. apply bind_ext. intros _ w1.
  rewrite bind_assoc. apply bind_ext. intros _ w2.
  now rewrite bind_assoc.
Qed.

(** The straight-line fetcher is the table, entry by entry. *)
Ltac norm :=
  cbv beta iota;
  repeat (rewrite bind_assoc || rewrite bind_ret_l || rewrite bind_ret_tt).

Ltac step :=
  norm; symmetry; norm; symmetry;
  first [reflexivity | apply bind_ext; intros [] ?].

Lemma fetch_step_unpatched url (rest rest' : M unit) w :
  (forall w', rest w' = rest' w') ->
  bind (clone url "deps") (fun _ => rest) w =
    bind (fetch_one (url, [])) (fun _ => rest') w.
Proof.
  intros H. unfold fetch_one. cbn [fst snd patch_all].
  step; norm; apply H.
Qed.

Lemma fetch_step_patched url p (rest rest' : M unit) w :
  (forall w', rest w' = rest' w') ->
  bind (clone url "deps")
       (fun cloned : bool => bind (if cloned then patch p else ret tt) (fun _ => rest)) w =
    bind (fetch_one (url, [p])) (fun _ => rest') w.
Proof.
  intros H. unfold fetch_one. cbn [fst snd patch_all].
  step; norm; [apply bind_ext; intros [] w2; norm|]; apply H.
Qed.

Lemma fetch_step_last url p1 p2 p3 w :
  bind (clone url "deps")
       (fun cloned : bool =>
          if cloned then bind (patch p1) (fun _ => bind (patch p2) (fun _ => patch p3))
          else ret tt) w =
    bind (fetch_one (url, [p1; p2; p3])) (fun _ => ret tt) w.
Proof.
  unfold fetch_one. cbn [fst snd patch_all].
  step; norm; [|reflexivity].
  apply bind_ext; intros [] w2. rewrite bind_ret_tt.
  apply bind_ext; intros [] w3. now rewrite bind_ret_tt.
Qed.

Lemma fetch_libraries_table w :
  fetch_libraries w = bind (status "Fetching libraries..." "96")
                           (fun _ => fetch_all FETCH_LIST) w.
Proof.
  unfold fetch_libraries. apply bind_ext. intros _ w1.
  unfold FETCH_LIST. cbn [fetch_all].
  apply fetch_step_unpatched; intros w2.
  apply fetch_step_patched; intros w3.
  apply fetch_step_unpatched; intros w4.
  apply fetch_step_unpatched; intros w5.
  apply fetch_step_patched; intros w6.
  apply fetch_step_patched; intros w7.
  apply fetch_step_patched; intros w8.
  apply fetch_step_last.
Qed.

(** ** Computations that raise only on a failed process *)

Lemma fails_only_by_exit_Ok {A} (r : Res A) a : out r = Ok a -> fails_only_by_exit r.
Proof. intros H e He. congruence. Qed.

Lemma fails_only_by_exit_run args0 dir overrides pipe w :
  fails_only_by_exit (run args0 dir overrides pipe w).
Proof.
  intros e. rewrite run_eq. simpl.
  destruct (_ =? 0) eqn:E; [discriminate|]. intros _.
  eexists _, _. split; [now left|]. now apply Z.eqb_neq.
Qed.

Lemma fails_only_by_exit_bind {A B} (m : M A) (k : A -> M B) w :
  fails_only_by_exit (m w) ->
  (forall a, out (m w) = Ok a -> fails_only_by_exit (k a (final (m w)))) ->
  fails_only_by_exit (bind m k w).
Proof.
  intros Hm Hk e. destruct (out (m w)) as [a|e'] eqn:E.
  - rewrite (bind_Ok _ _ _ _ E). simpl. intros He.
    destruct (Hk a eq_refl e He) as (c & rc & Hin & Hrc).
    exists c, rc. split; [|exact Hrc]. rewrite executed_app. apply in_or_app. now right.
  - rewrite (bind_Raise _ _ _ _ E). simpl. intros _. exact (Hm e' E).
Qed.

Lemma fails_only_by_exit_status_bind {B} message color (k : unit -> M B) w :
  fails_only_by_exit (k tt w) -> fails_only_by_exit (bind (status message color) k w).
Proof. intros H. rewrite bind_status. exact H. Qed.

Ltac only_exit :=
  repeat first
    [ apply fails_only_by_exit_run
    | apply fails_only_by_exit_status_bind
    | eapply fails_only_by_exit_Ok; reflexivity
    | apply fails_only_by_exit_bind; [|intros ? _] ].

Lemma fails_only_by_exit_patch patch_name w : fails_only_by_exit (patch patch_name w).
Proof. unfold patch. only_exit. Qed.

Lemma fails_only_by_exit_meson args dir w : fails_only_by_exit (meson args dir w).
Proof. unfold meson. rewrite bind_isdir. destruct (isdir w _); simpl; only_exit. Qed.

(** When no process fails, the whole list has run and the result is normal. *)
Lemma no_failure_complete {A} (r : Res A) L :
  follows r L -> fails_only_by_exit r ->
  Forall (fun x => x.2 = 0) (executed (trace r)) ->
  (exists a, out r = Ok a) ∧ executed (trace r) = all_ok L.
Proof.
  intros [Hruns Hok] Hfail Hzero. destruct (out r) as [a|e] eqn:E.
  - split; [now exists a|]. now apply (Hok a).
  - destruct (Hfail e E) as (c & rc & Hin & Hrc).
    rewrite List.Forall_forall in Hzero. now apply Hzero in Hin.
Qed.

Lemma bind_run_executed {B} args0 dir overrides pipe (k : CompletedProcess -> M B) w :
  exists rest,
    executed (trace (bind (run args0 dir overrides pipe) k w)) =
      (mkCmd args0 dir overrides pipe,
       (subprocess_run (mkCmd args0 dir overrides pipe) w).1.1) :: rest.
Proof.
  destruct (out (run args0 dir overrides pipe w)) as [a|e] eqn:E.
  - rewrite (bind_Ok _ _ _ _ E). cbn [trace]. rewrite executed_app, run_executed.
    now eexists.
  - rewrite (bind_Raise _ _ _ _ E). cbn [trace]. rewrite run_executed. now eexists.
Qed.

(** ** The top level *)

Lemma script_out w : out (script w) = out (main w).
Proof.
  unfold script, except_ArdentError_reraise.
  now destruct (out (main w)) as [a|[message|message|message]] eqn:E.
Qed.

Lemma script_executed w : executed (trace (script w)) = executed (trace (main w)).
Proof.
  unfold script, except_ArdentError_reraise.
  destruct (out (main w)) as [a|[message|message|message]] eqn:E; try reflexivity.
  simpl. rewrite executed_app. simpl. apply app_nil_r.
Qed.

Lemma script_ArdentError w message :
  out (main w) = Raise (ArdentError message) ->
  script w = mkRes (Raise (ArdentError message)) (final (main w))
                   (trace (main w) ++ [EPrint (colored message "91")]).
Proof. intros H. unfold script, except_ArdentError_reraise. now rewrite H. Qed.

Lemma script_other w :
  (forall message, out (main w) ≠ Raise (ArdentError message)) ->
  script w = main w.
Proof.
  intros H. unfold script, except_ArdentError_reraise.
  destruct (out (main w)) as [a|[message|message|message]] eqn:E; try reflexivity.
  now destruct (H message).
Qed.

Lemma append_assoc (a b c : string) : (a +:+ b) +:+ c = a +:+ b +:+ c.
Proof.
  induction a as [|x a IH]; [reflexivity|].
  change (String x ((a +:+ b) +:+ c) = String x (a +:+ b +:+ c)). now rewrite IH.
Qed.

Lemma append_empty_r (a : string) : a +:+ "" = a.
Proof.
  induction a as [|x a IH]; [reflexivity|].
  change (String x (a +:+ "") = String x a). now rewrite IH.
Qed.

Lemma failure_message_contains rc command_line :
  Py.contains (failure_message rc command_line) (Py.str rc)
  ∧ Py.contains (failure_message rc command_line) command_line.
Proof.
  unfold failure_message. split.
  - exists (Py.nl +:+ "Failed to run subprocess (exit code "),
           ("):" +:+ Py.nl +:+ command_line).
    now rewrite append_assoc.
  - exists (Py.nl +:+ "Failed to run subprocess (exit code " +:+ Py.str rc +:+ "):" +:+ Py.nl), "".
    now rewrite append_empty_r, !append_assoc.
Qed.

(** ** The claims *)

(** C2. When MSYSTEM is not "MINGW64" (or is unset), [main] raises the
    environment error at once: no process is started, nothing is printed
    by [main], the world is unchanged; the top level then prints that one
    error and ends with a non-zero status. *)
Theorem C2_wrong_shell_no_side_effect w :
  getenv "MSYSTEM" ≠ Some "MINGW64" ->
  main w = mkRes (Raise (ArdentError shell_message)) w []
  ∧ script w = mkRes (Raise (ArdentError shell_message)) w
                     [EPrint (colored shell_message "91")]
  ∧ executed (trace (script w)) = []
  ∧ printed (trace (script w)) = [colored shell_message "91"]
  ∧ final (script w) = w
  ∧ exit_status (out (script w)) = 1.
Proof.
  intros Henv.
  assert (Hmain : main w = mkRes (Raise (ArdentError shell_message)) w []).
  { unfold main. rewrite (bind_Raise _ _ _ (ArdentError shell_message));
      unfold check_shell; rewrite bool_decide_eq_true_2 by exact Henv; reflexivity. }
  assert (Hscript : script w = mkRes (Raise (ArdentError shell_message)) w
                                     [EPrint (colored shell_message "91")]).
  { rewrite (script_ArdentError w shell_message); now rewrite Hmain. }
  split; [exact Hmain|]. split; [exact Hscript|]. now rewrite Hscript.
Qed.

(** The text of the messages and console lines, spelled out: the
    arguments joined by single spaces (the standard library's
    [String.concat]), the exit code in decimal (the standard library's
    [NilZero.string_of_int]), and the escape sequences of a colour. *)
Lemma join_concat sep_ l : Py.join sep_ l = String.concat sep_ l.
Proof.
  induction l as [|x l IH]; [reflexivity|].
  destruct l as [|y l]; [reflexivity|].
  change (Py.join sep_ (x :: y :: l)) with (x +:+ sep_ +:+ Py.join sep_ (y :: l)).
  now rewrite IH.
Qed.

Lemma failure_message_text rc command_line :
  failure_message rc command_line =
    String "010" ("Failed to run subprocess (exit code "
                    +:+ NilZero.string_of_int (Z.to_int rc) +:+ "):"
                    +:+ String "010" command_line).
Proof. reflexivity. Qed.

Lemma announce_text args0 :
  colored ("> " +:+ Py.join " " args0) "94" =
    String "027" ("[94m> " +:+ String.concat " " args0 +:+ String "027" "[0m").
Proof. now rewrite join_concat. Qed.

(** C3. Whenever the process runner gets a non-zero exit status it
    raises the [ArdentError] whose message is a newline, "Failed to run
    subprocess (exit code N):" with N the exit code in decimal, a newline
    and the arguments joined by spaces.  If any process started during a
    run of the script exits with a non-zero status, [main] ends with that
    error; nothing runs after the failing process; nobody catches the
    error below the top level, which prints the message between the escape
    sequences ESC[91m and ESC[0m and re-raises it, so the process ends with
    a non-zero status. *)
Theorem C3_failure_terminates_run :
  (forall args0 dir overrides pipe w,
     let rc := (subprocess_run (mkCmd args0 dir overrides pipe) w).1.1 in
     rc ≠ 0 ->
     out (run args0 dir overrides pipe w)
       = Raise (ArdentError
           (String "010" ("Failed to run subprocess (exit code "
                            +:+ NilZero.string_of_int (Z.to_int rc) +:+ "):"
                            +:+ String "010" (String.concat " " args0)))))
  ∧ (forall w c rc,
       In (c, rc) (executed (trace (script w))) ->
       rc ≠ 0 ->
       let message :=
         String "010" ("Failed to run subprocess (exit code "
                         +:+ NilZero.string_of_int (Z.to_int rc) +:+ "):"
                         +:+ String "010" (String.concat " " (argv c))) in
       out (main w) = Raise (ArdentError message)
       ∧ Py.contains message (NilZero.string_of_int (Z.to_int rc))
       ∧ Py.contains message (String.concat " " (argv c))
       ∧ (exists tr, trace (main w) = tr ++ [EExec c rc])
       ∧ trace (script w)
           = trace (main w)
               ++ [EPrint (String "027" ("[91m" +:+ message +:+ String "027" "[0m"))]
       ∧ out (script w) = Raise (ArdentError message)
       ∧ exit_status (out (script w)) ≠ 0).
Proof.
  split.
  - intros args0 dir overrides pipe w rc Hrc. rewrite run_eq. cbn [out].
    fold rc. apply Z.eqb_neq in Hrc. now rewrite Hrc, join_concat, failure_message_text.
  - intros w c rc Hin Hrc message. rewrite script_executed in Hin.
    destruct (Built_disciplined _ _ Built_main w c rc Hin Hrc) as [Hout Htr].
    destruct (failure_message_contains rc (String.concat " " (argv c))) as [H1 H2].
    rewrite join_concat in Hout. rewrite failure_message_text in Hout, H1, H2.
    fold message in Hout, H1, H2.
    repeat split; try assumption.
    + now rewrite (script_ArdentError w message Hout).
    + now rewrite script_out.
    + rewrite script_out, Hout. discriminate.
Qed.

(** C8. Every call of the waf wrapper starts exactly one process: python3
    on the given waf script with configure, build, install and the prefix
    /mingw64, then the C check flag iff [c], the C++ check flag iff [cxx],
    then the caller's options: the first positional argument when it is a
    list, and nothing when there is no positional argument or the first
    one is not a list; in the given working directory; with the process
    environment overridden by the caller's entries. *)
Theorem C8_waf_command args dir waf_ overrides c cxx w :
  exists cmd rc merged,
    executed (trace (waf args dir waf_ overrides c cxx w)) = [(cmd, rc)]
    ∧ argv cmd = ["python3"; waf_] ++ ["configure"; "build"; "install"]
                   ++ ["--prefix=/mingw64"]
                   ++ (if c then ["--check-c-compiler=gcc"] else [])
                   ++ (if cxx then ["--check-cxx-compiler=g++"] else [])
                   ++ match args with
                      | ArgList options :: _ => options
                      | ArgStr _ :: _ => []
                      | [] => []
                      end
    ∧ cwd cmd = Some dir
    ∧ env cmd = Some merged
    ∧ forall name, merged !! name =
        match overrides !! name with
        | Some v => Some v
        | None => environ !! name
        end.
Proof.
  exists (waf_cmd args dir waf_ overrides c cxx),
         (subprocess_run (waf_cmd args dir waf_ overrides c cxx) w).1.1,
         (overrides ∪ environ).
  split; [|split; [|repeat split]].
  - rewrite waf_eq. unfold bind. rewrite run_eq. simpl.
    now destruct (_ =? 0).
  - now destruct args as [|[options|s] rest].
  - intros name. rewrite lookup_union.
    destruct (overrides !! name), (environ !! name); reflexivity.
Qed.

(** C9. With PKG_CONFIG_PATH unset the application build raises the
    built-in TypeError before any process is started; when the earlier
    steps of [main] have returned, the script ends with that TypeError,
    which the top level does not catch: no error line is printed. *)
Theorem C9_unset_pkg_config_path w :
  getenv "PKG_CONFIG_PATH" = None ->
  build_ardour w = mkRes (Raise (TypeError none_plus_str)) w
                         [EPrint (colored "Building Ardour..." "96")]
  ∧ (out (main_before_ardour w) = Ok tt ->
       out (script w) = Raise (TypeError none_plus_str)
       ∧ (forall message, out (script w) ≠ Raise (ArdentError message))
       ∧ trace (script w) = trace (main_before_ardour w)
                              ++ [EPrint (colored "Building Ardour..." "96")]
       ∧ exit_status (out (script w)) = 1).
Proof.
  intros Henv.
  assert (Hb : forall w', build_ardour w' =
                 mkRes (Raise (TypeError none_plus_str)) w'
                       [EPrint (colored "Building Ardour..." "96")]).
  { intros w'. unfold build_ardour. rewrite bind_status, Henv. reflexivity. }
  split; [apply Hb|]. intros Hok.
  assert (Hmain : main w = mkRes (Raise (TypeError none_plus_str))
                             (final (main_before_ardour w))
                             (trace (main_before_ardour w)
                                ++ [EPrint (colored "Building Ardour..." "96")])).
  { rewrite main_split, (bind_Ok _ _ _ _ Hok), Hb. reflexivity. }
  rewrite script_other; rewrite Hmain; simpl; try discriminate.
  repeat split; discriminate.
Qed.

(** C7, as the code has it. For every call of the meson wrapper: the
    setup step is started iff the build directory does not exist on
    entry; then configure (with the options of the first positional list),
    compile and install are started in that order, each in the build
    directory and each only after every earlier step exited with status 0;
    when no step fails all of them run and the wrapper returns; a step
    that exits non-zero is the last one and raises the error. *)
Theorem C7_meson_steps args dir w :
  let build := dir +:+ sep +:+ "build" in
  let r := meson args dir w in
  (In (meson_setup_cmd dir) (commands (trace r)) <-> isdir w build = false)
  ∧ Forall (fun c => cwd c = Some build) (meson_steps args dir)
  ∧ runs_of (meson_cmds (isdir w build) args dir) (executed (trace r))
  ∧ (Forall (fun x => x.2 = 0) (executed (trace r)) ->
       out r = Ok tt ∧ commands (trace r) = meson_cmds (isdir w build) args dir)
  ∧ (forall c rc, In (c, rc) (executed (trace r)) -> rc ≠ 0 ->
       out r = Raise (ArdentError (failure_message rc (Py.join " " (argv c))))
       ∧ exists tr, trace r = tr ++ [EExec c rc]).
Proof.
  intros build r. pose proof (follows_meson args dir w) as Hf. fold build r in Hf.
  split; [|split; [|split; [|split]]].
  - split.
    + intros Hin. destruct (isdir w build) eqn:E; [|reflexivity]. exfalso.
      revert Hin. eapply prefix_of_not_In; [apply runs_of_prefix, Hf|].
      unfold meson_cmds, meson_steps. simpl.
      intros [H|[H|[H|[]]]]; discriminate H.
    + intros E. subst r. unfold meson. rewrite bind_isdir. fold build. rewrite E.
      cbn [negb]. cbv iota. rewrite bind_assoc.
      match goal with
      | |- In _ (commands (trace (bind (run ?a ?d ?o ?p) ?k ?w0))) =>
          destruct (bind_run_executed a d o p k w0) as [rest Hrest]
      end.
      unfold commands. rewrite Hrest. now left.
  - repeat constructor.
  - apply Hf.
  - intros Hzero.
    destruct (no_failure_complete r _ Hf (fails_only_by_exit_meson args dir w) Hzero)
      as [[[] Hout] Hex].
    split; [exact Hout|now apply commands_all_ok].
  - apply (Built_disciplined (fun _ => True)), Built_meson. repeat constructor.
Qed.

(** ** The fetcher *)

Lemma clone_present url target_dir w :
  isdir w (checkout_dir url target_dir) = true ->
  clone url target_dir w = mkRes (Ok false) w [].
Proof.
  intros H. unfold clone. rewrite bind_isdir. fold (checkout_dir url target_dir).
  now rewrite H.
Qed.

Lemma clone_absent url target_dir w :
  isdir w (checkout_dir url target_dir) = false ->
  clone url target_dir w =
    let rc := (subprocess_run (clone_cmd url target_dir) w).1.1 in
    mkRes (if rc =? 0 then Ok true
           else Raise (ArdentError
                  (failure_message rc (Py.join " " (argv (clone_cmd url target_dir))))))
          (subprocess_run (clone_cmd url target_dir) w).2
          [EPrint (colored ("> " +:+ Py.join " " (argv (clone_cmd url target_dir))) "94");
           EExec (clone_cmd url target_dir) rc].
Proof.
  intros H. unfold clone. rewrite bind_isdir. fold (checkout_dir url target_dir).
  rewrite H. cbn [negb]. cbv iota. unfold bind at 1. rewrite run_eq.
  cbv zeta. cbn [out final trace]. fold (clone_cmd url target_dir).
  destruct (_ =? 0); reflexivity.
Qed.

Lemma follows_patch_all names w : follows (patch_all names w) (map patch_cmd names).
Proof.
  revert w. induction names as [|n names IH]; intros w; cbn [patch_all map].
  - now apply follows_silent.
  - change (patch_cmd n :: map patch_cmd names)
      with ([patch_cmd n] ++ map patch_cmd names).
    apply follows_bind; [apply follows_patch|intros _ _; apply IH].
Qed.

Lemma fails_only_by_exit_patch_all names w : fails_only_by_exit (patch_all names w).
Proof.
  revert w. induction names as [|n names IH]; intros w; cbn [patch_all].
  - now apply (fails_only_by_exit_Ok _ tt).
  - apply fails_only_by_exit_bind; [apply fails_only_by_exit_patch|intros _ _; apply IH].
Qed.

(** C4, as the code has it. [fetch_libraries] works through the fetch
    list entry by entry; the entries with patches are aubio, LRDF, raptor,
    lv2kit and ardour. For each entry: when the checkout directory exists,
    no process is started, [clone] returns False and no patch is applied;
    when it is absent, exactly one recursive clone is started; if it exits
    with status 0, [clone] returns True and the entry's patches are started
    right after it, in their order, each once and each only after the
    earlier ones exited with status 0 (all of them when none fails); if
    the clone exits non-zero the error is raised and no patch is applied. *)
Theorem C4_fetch_entry :
  (forall w, fetch_libraries w =
     bind (status "Fetching libraries..." "96") (fun _ => fetch_all FETCH_LIST) w)
  ∧ map (fun d => (Py.last_item (Py.split "/" (fst d)), snd d))
        (List.filter (fun d => negb (Nat.eqb (length (snd d)) 0)) FETCH_LIST)
    = [ ("aubio", ["aubio_priv.h.patch"]);
        ("LRDF", ["lrdf_types.h.patch"]);
        ("raptor", ["sort_r.h.patch"]);
        ("lv2kit", ["win_in_gtk2.cpp.patch"]);
        ("ardour", ["ardour-wscript.patch"; "main.cc.patch"; "pbd.cc.patch"]) ]
  ∧ forall url patches w,
      In (url, patches) FETCH_LIST ->
      let dir := "deps" +:+ sep +:+ Py.last_item (Py.split "/" url) in
      let cl := clone_cmd url "deps" in
      let rc := (subprocess_run cl w).1.1 in
      let failure := ArdentError (failure_message rc (Py.join " " (argv cl))) in
      let r := fetch_one (url, patches) w in
      (isdir w dir = true ->
         clone url "deps" w = mkRes (Ok false) w [] ∧ r = mkRes (Ok tt) w [])
      ∧ (isdir w dir = false ->
           executed (trace (clone url "deps" w)) = [(cl, rc)]
           ∧ (rc = 0 ->
                out (clone url "deps" w) = Ok true
                ∧ exists ex,
                    executed (trace r) = (cl, 0) :: ex
                    ∧ runs_of (map patch_cmd patches) ex
                    ∧ (Forall (fun x => x.2 = 0) ex ->
                         out r = Ok tt ∧ ex = all_ok (map patch_cmd patches)))
           ∧ (rc ≠ 0 ->
                out (clone url "deps" w) = Raise failure
                ∧ out r = Raise failure
                ∧ executed (trace r) = [(cl, rc)])).
Proof.
  split; [exact fetch_libraries_table|]. split; [reflexivity|].
  intros url patches w _ dir cl rc failure r. split.
  - intros Hdir. pose proof (clone_present url "deps" w Hdir) as Hc.
    split; [exact Hc|]. subst r. unfold fetch_one, bind. cbn [fst snd].
    now rewrite Hc.
  - intros Hdir. pose proof (clone_absent url "deps" w Hdir) as Hc.
    cbv zeta in Hc. fold cl rc in Hc. fold failure in Hc.
    split; [now rewrite Hc|]. split.
    + intros Hrc. rewrite Hrc in Hc. cbn [Z.eqb] in Hc.
      assert (Hout : out (clone url "deps" w) = Ok true) by now rewrite Hc.
      split; [exact Hout|].
      exists (executed (trace (patch_all patches (final (clone url "deps" w))))).
      subst r. unfold fetch_one. cbn [fst snd].
      rewrite (bind_Ok _ _ _ _ Hout). cbn [out trace]. rewrite executed_app.
      split; [now rewrite Hc|]. split; [apply follows_patch_all|].
      intros Hzero.
      destruct (no_failure_complete _ _ (follows_patch_all patches _)
                  (fails_only_by_exit_patch_all patches _) Hzero) as [[[] Ho] Hex].
      split; assumption.
    + intros Hrc. apply Z.eqb_neq in Hrc. rewrite Hrc in Hc.
      assert (Hout : out (clone url "deps" w) = Raise failure) by now rewrite Hc.
      split; [exact Hout|]. subst r. unfold fetch_one. cbn [fst snd].
      rewrite (bind_Raise _ _ _ _ Hout). cbn [out trace]. now rewrite Hc.
Qed.

(** ** The package installer *)

Lemma bind_run {B} args0 dir overrides pipe (k : CompletedProcess -> M B) w :
  bind (run args0 dir overrides pipe) k w =
    let c := mkCmd args0 dir overrides pipe in
    let rc := (subprocess_run c w).1.1 in
    let w1 := (subprocess_run c w).2 in
    let head := [EPrint (colored ("> " +:+ Py.join " " args0) "94"); EExec c rc] in
    if rc =? 0 then
      let r := k (mkCompleted rc (if pipe then Some (subprocess_run c w).1.2 else None)) w1 in
      mkRes (out r) (final r) (head ++ trace r)
    else
      mkRes (Raise (ArdentError (failure_message rc (Py.join " " args0)))) w1 head.
Proof.
  unfold bind at 1. rewrite run_eq. cbv zeta. cbn [out final trace].
  now destruct (_ =? 0).
Qed.

Lemma install_package_deps_executed w :
  let rc := (subprocess_run query_cmd w).1.1 in
  let w1 := (subprocess_run query_cmd w).2 in
  let to_install := SYSTEM_DEPENDENCIES ∖ installed_packages w in
  executed (trace (install_package_deps w)) =
    (query_cmd, rc) ::
      (if (rc =? 0) && bool_decide (to_install ≠ ∅)
       then [(install_cmd (elements to_install),
              (subprocess_run (install_cmd (elements to_install)) w1).1.1)]
       else []).
Proof.
  intros rc w1 to_install. unfold install_package_deps.
  rewrite bind_status. cbn [trace executed]. rewrite bind_run. cbv zeta.
  fold query_cmd. fold rc. fold w1.
  destruct (rc =? 0); [|reflexivity].
  cbn [stdout andb out final trace app executed].
  fold (installed_packages w). fold to_install.
  destruct (bool_decide (to_install ≠ ∅)); [|reflexivity].
  rewrite bind_status. cbn [trace executed]. rewrite bind_run. cbv zeta.
  fold (install_cmd (elements to_install)).
  now destruct (_ =? 0).
Qed.


Lemma empty_not_required : "" ∉ SYSTEM_DEPENDENCIES.
Proof.
  unfold SYSTEM_DEPENDENCIES. rewrite elem_of_list_to_set, list_elem_of_In.
  unfold SYSTEM_DEPENDENCIES_list. rewrite in_app_iff, in_map_iff.
  intros [(x & Hx & _)|Hin]; [discriminate Hx|].
  revert Hin. apply (bool_decide_unpack _). vm_compute. exact I.
Qed.

(** *** What [split] cuts a text into *)

Lemma split_pieces ch s :
  exists h t,
    Py.split ch s = h :: t
    ∧ (has_char ch h = false
       ∧ exists after, s = h +:+ after ∧ (after = "" ∨ exists a, after = String ch a))
    ∧ forall p, In p t ->
        has_char ch p = false
        ∧ exists b after,
            s = (b +:+ String ch "") +:+ p +:+ after
            ∧ (after = "" ∨ exists a, after = String ch a).
Proof.
  induction s as [|c s (h & t & E & (Hh & after & Hs & Hafter) & Htail)].
  - exists "", []. split; [reflexivity|]. split.
    + split; [reflexivity|]. exists "". split; [reflexivity|now left].
    + intros p [].
  - cbn [Py.split]. rewrite E. destruct (Ascii.eqb_spec c ch) as [->|Hc].
    + exists "", (h :: t). split; [reflexivity|]. split.
      * split; [reflexivity|]. exists (String ch s). split; [reflexivity|].
        right. now exists s.
      * intros p [<-|Hin].
        -- split; [exact Hh|]. exists "", after. split; [|exact Hafter].
           rewrite Hs at 1. reflexivity.
        -- destruct (Htail p Hin) as (Hp & b & after' & Hs' & Hafter').
           split; [exact Hp|]. exists (String ch b), after'. split; [|exact Hafter'].
           rewrite Hs' at 1. reflexivity.
    + exists (String c h), t. split; [reflexivity|]. split.
      * split.
        -- cbn [has_char]. rewrite Hh, orb_false_r. now apply Ascii.eqb_neq.
        -- exists after. split; [|exact Hafter]. rewrite Hs at 1. reflexivity.
      * intros p Hin. destruct (Htail p Hin) as (Hp & b & after' & Hs' & Hafter').
        split; [exact Hp|]. exists (String c b), after'. split; [|exact Hafter'].
        rewrite Hs' at 1. reflexivity.
Qed.

Lemma split_starts_with ch p after :
  has_char ch p = false ->
  (after = "" ∨ exists a, after = String ch a) ->
  exists t, Py.split ch (p +:+ after) = p :: t.
Proof.
  intros Hp Hafter. induction p as [|c p IH].
  - change ("" +:+ after) with after. destruct Hafter as [->|[a ->]].
    + now exists [].
    + cbn [Py.split]. rewrite Ascii.eqb_refl. now eexists.
  - cbn [has_char] in Hp. apply orb_false_elim in Hp as [Hc Hp].
    destruct (IH Hp) as [t Ht].
    change (String c p +:+ after) with (String c (p +:+ after)).
    cbn [Py.split]. rewrite Hc, Ht. now exists t.
Qed.

Lemma split_after_cut ch b rest :
  exists h l, Py.split ch ((b +:+ String ch "") +:+ rest) = h :: l ++ Py.split ch rest.
Proof.
  induction b as [|c b (h & l & IH)].
  - change (("" +:+ String ch "") +:+ rest) with (String ch rest).
    cbn [Py.split]. rewrite Ascii.eqb_refl. now exists "", [].
  - change ((String c b +:+ String ch "") +:+ rest)
      with (String c ((b +:+ String ch "") +:+ rest)).
    cbn [Py.split]. rewrite IH. destruct (Ascii.eqb c ch).
    + now exists "", (h :: l).
    + now exists (String c h), l.
Qed.

(** The elements of [split] are exactly the pieces of the text. *)
Lemma split_is_piece ch p s : In p (Py.split ch s) <-> is_piece ch p s.
Proof.
  split.
  - destruct (split_pieces ch s) as (h & t & -> & (Hh & after & Hs & Hafter) & Htail).
    intros [<-|Hin].
    + split; [exact Hh|]. exists "", after. split; [exact Hs|]. split; [now left|exact Hafter].
    + destruct (Htail p Hin) as (Hp & b & after' & Hs' & Hafter').
      split; [exact Hp|]. exists (b +:+ String ch ""), after'.
      split; [exact Hs'|]. split; [right; now exists b|exact Hafter'].
  - intros (Hp & before & after & -> & Hbefore & Hafter).
    destruct (split_starts_with ch p after Hp Hafter) as [t Ht].
    destruct Hbefore as [->|[b ->]].
    + change ("" +:+ p +:+ after) with (p +:+ after). rewrite Ht. now left.
    + destruct (split_after_cut ch b (p +:+ after)) as (h & l & ->).
      right. apply in_or_app. right. rewrite Ht. now left.
Qed.

Lemma installed_is_line w p :
  p ∈ installed_packages w <-> is_line p (subprocess_run query_cmd w).1.2.
Proof.
  unfold installed_packages, is_line.
  now rewrite elem_of_list_to_set, list_elem_of_In, split_is_piece.
Qed.

(** The packages handed to pacman: the required ones that are not a line
    of the query output, each once. *)
Lemma to_install_missing_lines w :
  let pkgs := elements (SYSTEM_DEPENDENCIES ∖ installed_packages w) in
  NoDup pkgs
  ∧ forall p, p ∈ pkgs <->
      p ∈ SYSTEM_DEPENDENCIES ∧ ¬ is_line p (subprocess_run query_cmd w).1.2.
Proof.
  intros pkgs. split; [apply NoDup_elements|]. intros p.
  unfold pkgs. rewrite elem_of_elements.
  now rewrite elem_of_difference, installed_is_line.
Qed.

Lemma to_install_empty_iff w :
  SYSTEM_DEPENDENCIES ∖ installed_packages w = ∅ <->
  forall p, p ∈ SYSTEM_DEPENDENCIES -> is_line p (subprocess_run query_cmd w).1.2.
Proof.
  split.
  - intros Hempty p Hreq. apply installed_is_line.
    destruct (decide (p ∈ installed_packages w)) as [Hin|Hout]; [exact Hin|].
    exfalso. apply (not_elem_of_empty (C:=gset string) p).
    rewrite <- Hempty. apply elem_of_difference. split; [exact Hreq|exact Hout].
  - intros Hall. apply elem_of_equiv_empty_L. intros p Hp.
    apply elem_of_difference in Hp as [Hreq Hnot].
    apply Hnot, installed_is_line, Hall, Hreq.
Qed.

(** C5. The installed packages are the lines of the query output.  An
    install command of the installer names exactly the required packages
    that are not a line of that output, each once: never an installed one.
    When every required package is a line of the output no install command
    is started; when one is missing (and the query succeeded) the run is
    the query followed by that one install command. *)
Theorem C5_install_set_difference w :
  let query := mkCmd ["pacman"; "-Qq"] None None true in
  let text := (subprocess_run query w).1.2 in
  let install pkgs :=
    mkCmd (["pacman"; "-S"; "--noconfirm"; "--needed"] ++ pkgs) None None false in
  let exact_difference (pkgs : list string) :=
    NoDup pkgs
    ∧ forall p, p ∈ pkgs <-> p ∈ SYSTEM_DEPENDENCIES ∧ ¬ is_line p text in
  (forall c, In c (commands (trace (install_package_deps w))) ->
     is_install c = true ->
     exists pkgs, c = install pkgs ∧ exact_difference pkgs)
  ∧ ((forall p, p ∈ SYSTEM_DEPENDENCIES -> is_line p text) ->
       Forall (fun c => is_install c = false)
              (commands (trace (install_package_deps w))))
  ∧ ((exists p, p ∈ SYSTEM_DEPENDENCIES ∧ ¬ is_line p text) ->
     (subprocess_run query w).1.1 = 0 ->
     exists pkgs,
       commands (trace (install_package_deps w)) = [query; install pkgs]
       ∧ exact_difference pkgs).
Proof.
  intros query text install exact_difference.
  set (to_install := SYSTEM_DEPENDENCIES ∖ installed_packages w).
  assert (Hexact : exact_difference (elements to_install))
    by exact (to_install_missing_lines w).
  unfold commands. rewrite install_package_deps_executed. cbv zeta.
  fold to_install. split; [|split].
  - intros c. destruct (_ && _); cbn [map fst].
    + intros [<-|[<-|[]]]; [discriminate|]. intros _.
      now exists (elements to_install).
    + intros [<-|[]]. discriminate.
  - intros Hall.
    assert (Hempty : to_install = ∅) by (apply to_install_empty_iff; exact Hall).
    rewrite Hempty, bool_decide_eq_false_2 by (intros H; now apply H).
    rewrite andb_false_r. cbn [map fst]. now repeat constructor.
  - intros (p & Hreq & Hnot) Hrc.
    assert (Hne : to_install ≠ ∅).
    { intros Hempty. exact (Hnot (proj1 (to_install_empty_iff w) Hempty p Hreq)). }
    exists (elements to_install). split; [|exact Hexact].
    change ((subprocess_run query_cmd w).1.1 = 0) in Hrc.
    rewrite Hrc, bool_decide_eq_true_2 by exact Hne. reflexivity.
Qed.

(** C10. An install command of the installer names a non-empty list of
    packages, all of them required ones, and never the empty string. *)
Theorem C10_install_arguments w c :
  In c (commands (trace (install_package_deps w))) ->
  is_install c = true ->
  exists pkgs,
    argv c = ["pacman"; "-S"; "--noconfirm"; "--needed"] ++ pkgs
    ∧ pkgs ≠ []
    ∧ (forall p, p ∈ pkgs -> p ∈ SYSTEM_DEPENDENCIES)
    ∧ ("" ∉ pkgs).
Proof.
  unfold commands. rewrite install_package_deps_executed. cbv zeta.
  set (to_install := SYSTEM_DEPENDENCIES ∖ installed_packages w).
  destruct (_ =? 0); cbn [andb map fst]; [|intros [<-|[]]; discriminate].
  destruct (bool_decide (to_install ≠ ∅)) eqn:E; cbn [map fst];
    [|intros [<-|[]]; discriminate].
  apply bool_decide_eq_true_1 in E.
  intros [<-|[<-|[]]]; [discriminate|]. intros _.
  assert (Hsub : forall p, p ∈ elements to_install -> p ∈ SYSTEM_DEPENDENCIES).
  { intros p Hp. apply elem_of_elements in Hp. unfold to_install in Hp.
    apply elem_of_difference in Hp as [Hp _]. exact Hp. }
  exists (elements to_install). split; [reflexivity|]. split; [|split].
  - intros Hnil. apply E. now apply leibniz_equiv, elements_empty_inv.
  - exact Hsub.
  - intros Hin. apply empty_not_required. now apply Hsub.
Qed.

(** ** Whole runs *)


Lemma bind_Ok_trace {A B} (m : M A) (k : A -> M B) w b :
  out (bind m k w) = Ok b ->
  exists a, out (m w) = Ok a
    ∧ out (k a (final (m w))) = Ok b
    ∧ trace (bind m k w) = trace (m w) ++ trace (k a (final (m w))).
Proof.
  intros H. destruct (bind_Ok_inv _ _ _ _ H) as (a & Ha & Hb).
  exists a. split; [exact Ha|]. split; [exact Hb|]. now rewrite (bind_Ok _ _ _ _ Ha).
Qed.

Lemma filter_none (l : list Cmd) :
  Forall (fun c => is_build c = false) l -> List.filter is_build l = [].
Proof.
  induction 1 as [|c l Hc _ IH]; [reflexivity|]. cbn [List.filter]. now rewrite Hc.
Qed.

Lemma query_or_install_not_build c :
  c = query_cmd ∨ (exists pkgs, c = install_cmd pkgs) -> is_build c = false.
Proof. intros [->|[pkgs ->]]; reflexivity. Qed.

Lemma clone_or_patch_not_build c :
  is_clone c = true ∨ is_patch c = true -> is_build c = false.
Proof.
  unfold is_clone, is_patch, is_build. destruct (argv c) as [|a [|b l]].
  - now intros [H|H].
  - intros [H|H]; [discriminate H|]. apply String.eqb_eq in H. now subst a.
  - intros [H|H].
    + apply andb_prop in H as [H _]. apply String.eqb_eq in H. now subst a.
    + apply String.eqb_eq in H. now subst a.
Qed.

Lemma check_shell_silent w : final (check_shell w) = w ∧ trace (check_shell w) = [].
Proof. unfold check_shell. now destruct (bool_decide _). Qed.

Lemma build_ardour_Ok_inv w a :
  out (build_ardour w) = Ok a -> exists path, getenv "PKG_CONFIG_PATH" = Some path.
Proof.
  unfold build_ardour. rewrite bind_status. cbn [out].
  destruct (getenv "PKG_CONFIG_PATH") as [path|]; [now exists path|discriminate].
Qed.

Lemma library_builds_are_builds present :
  List.filter is_build (library_builds present) = library_builds present.
Proof. now destruct present. Qed.

(** C6. On a successful run the build-tool processes are, in order: the
    build of jack2, of liblo, of libltc, of raptor, of LRDF, of lv2kit and
    of aubio, and last the application build; each in the directory of its
    checkout (the meson steps in lv2kit's build directory). *)
Theorem C6_build_order w :
  out (script w) = Ok tt ->
  exists present path,
    getenv "PKG_CONFIG_PATH" = Some path
    ∧ List.filter is_build (commands (trace (script w))) =
        jack2_build ++ liblo_build ++ libltc_build ++ raptor_build
          ++ LRDF_build ++ lv2kit_build present ++ aubio_build
          ++ ardour_build path
    ∧ map cwd (jack2_build ++ liblo_build ++ libltc_build ++ raptor_build
                 ++ LRDF_build ++ lv2kit_build present ++ aubio_build
                 ++ ardour_build path) =
        map Some
          (["deps/jack2"; "deps/liblo"; "deps/liblo"; "deps/libltc";
            "deps/libltc"; "deps/raptor"; "deps/raptor"; "deps/LRDF";
            "deps/LRDF"]
             ++ (if present then [] else ["deps/lv2kit"])
             ++ [ "deps/lv2kit" +:+ sep +:+ "build";
                  "deps/lv2kit" +:+ sep +:+ "build";
                  "deps/lv2kit" +:+ sep +:+ "build";
                  "deps/aubio"; "deps/ardour" ]).
Proof.
  rewrite script_out. unfold commands. rewrite script_executed.
  fold (commands (trace (main w))). intros Hok.
  rewrite main_split in Hok |- *.
  destruct (bind_Ok_trace _ _ _ _ Hok) as ([] & Hbefore & Hardour & ->).
  revert Hardour. set (w4 := final (main_before_ardour w)). intros Hardour.
  unfold main_before_ardour in Hbefore |- *.
  destruct (bind_Ok_trace _ _ _ _ Hbefore) as ([] & _ & H1 & ->).
  destruct (check_shell_silent w) as [Hfinal Htrace].
  rewrite Hfinal in H1 |- *. rewrite Htrace. cbn [app].
  destruct (bind_Ok_trace _ _ _ _ H1) as ([] & _ & H2 & ->).
  destruct (bind_Ok_trace _ _ _ _ H2) as ([] & _ & H3 & ->).
  revert H3 Hardour.
  set (w3 := final (fetch_libraries (final (install_package_deps w)))).
  intros H3 Hardour.
  destruct (follows_build_libraries w3) as (w' & _ & Hlibs).
  destruct (build_ardour_Ok_inv _ _ Hardour) as [path Hpath].
  pose proof (follows_build_ardour w4) as Hard.
  rewrite Hpath in Hard.
  exists (isdir w' ("deps/lv2kit" +:+ sep +:+ "build")), path.
  split; [exact Hpath|]. split.
  - rewrite !commands_app, !List.filter_app.
    rewrite (filter_none (commands (trace (install_package_deps w)))).
    2:{ apply (Built_sat (fun c => is_build c = false)).
        eapply Built_weaken; [|apply Built_install_package_deps].
        exact query_or_install_not_build. }
    rewrite (filter_none (commands (trace (fetch_libraries _)))).
    2:{ apply (Built_sat (fun c => is_build c = false)).
        eapply Built_weaken; [|apply Built_fetch_libraries].
        exact clone_or_patch_not_build. }
    cbn [app].
    rewrite (commands_all_ok _ _ (follows_ok _ _ Hlibs tt H3)).
    rewrite (commands_all_ok _ _ (follows_ok _ _ Hard tt Hardour)).
    rewrite library_builds_are_builds. unfold library_builds.
    now rewrite <- !app_assoc.
  - now destruct (isdir w' _).
Qed.

(** ** A second run *)




Lemma fetch_one_present d w :
  isdir w (checkout_dir (fst d) "deps") = true -> fetch_one d w = mkRes (Ok tt) w [].
Proof.
  intros H. unfold fetch_one, bind. now rewrite (clone_present _ _ _ H).
Qed.







(** ** Further properties of the process runner and the wrappers *)

(** X1. The process runner returns normally exactly when the exit status
    is 0; the result then carries status 0 and the captured output exactly
    when stdout was piped.  In every case it prints the command line once,
    starts the one process, and leaves the world as the process left it. *)
Theorem run_returns_iff_zero args0 dir overrides pipe w :
  let c := mkCmd args0 dir overrides pipe in
  let rc := (subprocess_run c w).1.1 in
  let output := (subprocess_run c w).1.2 in
  (forall r, out (run args0 dir overrides pipe w) = Ok r
             <-> rc = 0 ∧ r = mkCompleted 0 (if pipe then Some output else None))
  ∧ trace (run args0 dir overrides pipe w)
      = [EPrint (colored ("> " +:+ Py.join " " args0) "94"); EExec c rc]
  ∧ final (run args0 dir overrides pipe w) = (subprocess_run c w).2.
Proof.
  intros c rc output. rewrite run_eq. cbv zeta. fold c rc output. cbn [out trace final].
  split; [|split; reflexivity].
  intros r. destruct (Z.eqb_spec rc 0) as [Hrc|Hrc].
  - rewrite Hrc. split.
    + intros H. injection H as <-. now split.
    + intros [_ ->]. reflexivity.
  - split; [discriminate|]. intros [H _]. contradiction.
Qed.

Lemma fails_only_by_exit_ac dir w : fails_only_by_exit (ac dir w).
Proof. unfold ac. only_exit. Qed.

(** X2. The autotools wrapper starts [sh ./autogen.sh] and then
    [make install], both in the given directory, the second only after the
    first exited with status 0.  autogen gets the process environment with
    ACLOCAL_PATH forced to /usr/share/aclocal; make inherits the
    environment.  When neither fails the wrapper returns; a step that exits
    non-zero is the last one and raises the error. *)
Theorem ac_steps dir w :
  let r := ac dir w in
  let autogen := mkCmd ["sh"; "./autogen.sh"] (Some dir)
                   (Some ({[ "ACLOCAL_PATH" := "/usr/share/aclocal" ]} ∪ environ)) false in
  let make := mkCmd ["make"; "install"] (Some dir) None false in
  (exists rc rest, executed (trace r) = (autogen, rc) :: rest)
  ∧ runs_of [autogen; make] (executed (trace r))
  ∧ (forall merged, env autogen = Some merged ->
       merged !! "ACLOCAL_PATH" = Some "/usr/share/aclocal"
       ∧ forall name, name ≠ "ACLOCAL_PATH" -> merged !! name = environ !! name)
  ∧ (Forall (fun x => x.2 = 0) (executed (trace r)) ->
       out r = Ok tt ∧ commands (trace r) = [autogen; make])
  ∧ (forall c rc, In (c, rc) (executed (trace r)) -> rc ≠ 0 ->
       out r = Raise (ArdentError (failure_message rc (Py.join " " (argv c))))
       ∧ exists tr, trace r = tr ++ [EExec c rc]).
Proof.
  intros r autogen make. pose proof (follows_ac dir w) as Hf. fold r in Hf.
  change (ac_cmds dir) with [autogen; make] in Hf.
  split; [|split; [|split; [|split]]].
  - subst r. unfold ac.
    match goal with
    | |- exists _ _, executed (trace (bind (run ?a ?d ?o ?p) ?k ?w0)) = _ =>
        destruct (bind_run_executed a d o p k w0) as [rest Hrest]
    end.
    eexists _, rest. exact Hrest.
  - apply Hf.
  - intros merged H. injection H as <-. split.
    + rewrite lookup_union, lookup_singleton_eq. now destruct (environ !! _).
    + intros name Hne. rewrite lookup_union, lookup_singleton_ne by congruence.
      now destruct (environ !! name).
  - intros Hzero.
    destruct (no_failure_complete r _ Hf (fails_only_by_exit_ac dir w) Hzero)
      as [[[] Hout] Hex].
    split; [exact Hout|now apply commands_all_ok].
  - apply (Built_disciplined (fun _ => True)), Built_ac. repeat constructor.
Qed.

(** ** Every process is announced *)

Lemma announced_app t1 t2 : announced t1 -> announced t2 -> announced (t1 ++ t2).
Proof.
  intros H1 H2. induction H1 as [|line tr _ IH|c rc tr _ IH]; cbn [app].
  - exact H2.
  - now apply announced_print.
  - now apply announced_exec.
Qed.

Lemma Built_announced P {A} (m : M A) :
  Built P m -> forall w, announced (trace (m w)).
Proof.
  induction 1 as [A a|A e|message color|path|args0 cwd env pipe HP
                 |A B m k _ IHm _ IHk]; intros w.
  - apply announced_nil.
  - apply announced_nil.
  - apply announced_print, announced_nil.
  - apply announced_nil.
  - rewrite run_eq. cbv zeta. cbn [trace].
    apply (announced_exec (mkCmd args0 cwd env pipe)), announced_nil.
  - destruct (out (m w)) as [a|e] eqn:E.
    + rewrite (bind_Ok _ _ _ _ E). cbn [trace]. apply announced_app; [apply IHm|apply IHk].
    + rewrite (bind_Raise _ _ _ _ E). cbn [trace]. apply IHm.
Qed.

Lemma announced_before tr :
  announced tr ->
  forall pre c rc post, tr = pre ++ EExec c rc :: post ->
    exists pre', pre = pre' ++ [EPrint (colored ("> " +:+ Py.join " " (argv c)) "94")].
Proof.
  induction 1 as [|line tr _ IH|c0 rc0 tr _ IH]; intros pre c rc post Heq.
  - destruct pre; discriminate Heq.
  - destruct pre as [|e pre]; [discriminate Heq|]. injection Heq as <- Heq.
    destruct (IH pre c rc post Heq) as [pre' ->]. now exists (EPrint line :: pre').
  - destruct pre as [|e [|e' pre]]; [discriminate Heq| |].
    + injection Heq as <- <- _ _. now exists [].
    + injection Heq as <- <- Heq.
      destruct (IH pre c rc post Heq) as [pre' ->].
      now exists (EPrint (colored ("> " +:+ Py.join " " (argv c0)) "94")
                    :: EExec c0 rc0 :: pre').
Qed.

(** X3. In every run of the script, each process is started right after
    the console line that shows its command line: the escape sequence
    ESC[94m, "> ", the arguments joined by single spaces, and the escape
    sequence ESC[0m. *)
Theorem every_process_is_announced w pre c rc post :
  trace (script w) = pre ++ EExec c rc :: post ->
  exists pre',
    pre = pre' ++ [EPrint (String "027" ("[94m> " +:+ String.concat " " (argv c)
                                           +:+ String "027" "[0m"))].
Proof.
  rewrite <- announce_text. apply announced_before.
  unfold script, except_ArdentError_reraise.
  pose proof (Built_announced _ _ Built_main w) as Hmain.
  destruct (out (main w)) as [a|[message|message|message]]; try exact Hmain.
  cbn [out trace status print]. apply announced_app; [exact Hmain|].
  apply announced_print, announced_nil.
Qed.

(** ** The name of a checkout *)

Lemma split_last_shape ch s :
  exists pre,
    s = pre +:+ Py.last_item (Py.split ch s)
    ∧ has_char ch (Py.last_item (Py.split ch s)) = false
    ∧ ((pre = "" ∧ exists x, Py.split ch s = [x])
       ∨ ((exists p, pre = p +:+ String ch "")
          ∧ exists h h' t, Py.split ch s = h :: h' :: t)).
Proof.
  unfold Py.last_item.
  induction s as [|c s (pre & Hs & Hno & Hshape)]; cbn [Py.split].
  - exists "". repeat split. left. split; [reflexivity|now exists ""].
  - destruct (Py.split ch s) as [|x [|y t]] eqn:E.
    + destruct Hshape as [[_ [x H]]|[_ (h & h' & t & H)]]; discriminate H.
    + destruct Hshape as [[-> _]|[_ (h & h' & t & H)]]; [|discriminate H].
      cbn [List.last] in Hs, Hno. destruct (Ascii.eqb_spec c ch) as [->|Hc].
      * exists (String ch ""). cbn [List.last]. split; [now rewrite Hs at 1|].
        split; [exact Hno|]. right. split; [now exists ""|now exists "", x, []].
      * exists "". cbn [List.last]. split; [now rewrite Hs at 1|]. split.
        { cbn [has_char]. rewrite Hno, orb_false_r. now apply Ascii.eqb_neq. }
        left. split; [reflexivity|now eexists].
    + destruct Hshape as [[_ [z H]]|[[p ->] _]]; [discriminate H|].
      change (List.last (x :: y :: t) "") with (List.last (y :: t) "") in Hs, Hno.
      destruct (Ascii.eqb_spec c ch) as [->|Hc].
      * exists (String ch p +:+ String ch "").
        change (List.last ("" :: x :: y :: t) "") with (List.last (y :: t) "").
        split; [now rewrite Hs at 1|]. split; [exact Hno|].
        right. split; [now exists (String ch p)|now exists "", x, (y :: t)].
      * exists (String c p +:+ String ch "").
        change (List.last (String c x :: y :: t) "") with (List.last (y :: t) "").
        split; [now rewrite Hs at 1|]. split; [exact Hno|].
        right. split; [now exists (String c p)|now exists (String c x), y, t].
Qed.

Lemma split_trailing ch s :
  exists h l, Py.split ch (s +:+ String ch "") = h :: l ++ [""].
Proof.
  induction s as [|c s (h & l & IH)].
  - exists "", []. change ("" +:+ String ch "") with (String ch "").
    cbn [Py.split]. now rewrite Ascii.eqb_refl.
  - change (String c s +:+ String ch "") with (String c (s +:+ String ch "")).
    cbn [Py.split]. rewrite IH. destruct (Ascii.eqb c ch).
    + now exists "", (h :: l).
    + now exists (String c h), l.
Qed.

Lemma last_snoc_cons (h : string) l x : List.last (h :: l ++ [x]) "" = x.
Proof.
  revert h. induction l as [|y l IH]; intros h; [reflexivity|].
  change (List.last (h :: (y :: l) ++ [x]) "") with (List.last (y :: l ++ [x]) "").
  apply IH.
Qed.

(** X4. The directory [clone] looks for is the target directory, the path
    separator, and the text of the URL after its last slash: that name has
    no slash, and what precedes it in the URL is empty or ends with a
    slash.  For a URL that ends with a slash the name is empty.  [clone]
    starts no process exactly when that directory exists. *)
Theorem clone_directory_name url target_dir w :
  let name := Py.last_item (Py.split "/" url) in
  (exists pre, url = pre +:+ name ∧ (pre = "" ∨ exists p, pre = p +:+ "/"))
  ∧ has_char "/" name = false
  ∧ Py.last_item (Py.split "/" (url +:+ "/")) = ""
  ∧ (commands (trace (clone url target_dir w)) = []
     <-> isdir w (target_dir +:+ sep +:+ name) = true).
Proof.
  intros name. destruct (split_last_shape "/" url) as (pre & Hs & Hno & Hshape).
  fold name in Hs, Hno. split; [|split; [|split]].
  - exists pre. split; [exact Hs|].
    destruct Hshape as [[-> _]|[Hp _]]; [now left|now right].
  - exact Hno.
  - destruct (split_trailing "/" url) as (h & l & ->). apply last_snoc_cons.
  - change (target_dir +:+ sep +:+ name) with (checkout_dir url target_dir).
    destruct (isdir w (checkout_dir url target_dir)) eqn:E.
    + rewrite (clone_present _ _ _ E). now split.
    + rewrite (clone_absent _ _ _ E). cbv zeta. unfold commands.
      cbn [trace executed map]. split; discriminate.
Qed.

(** ** The shell check, passed *)

(** X5. The shell check passes exactly when MSYSTEM is "MINGW64", and then
    it prints nothing and starts nothing; the run then always begins with
    the package query, whose output is captured. *)
Theorem right_shell_starts_with_query w :
  (out (check_shell w) = Ok tt <-> getenv "MSYSTEM" = Some "MINGW64")
  ∧ (getenv "MSYSTEM" = Some "MINGW64" ->
       check_shell w = mkRes (Ok tt) w []
       ∧ exists rc rest,
           executed (trace (script w))
             = (mkCmd ["pacman"; "-Qq"] None None true, rc) :: rest).
Proof.
  assert (Hpass : getenv "MSYSTEM" = Some "MINGW64" -> check_shell w = mkRes (Ok tt) w []).
  { intros H. unfold check_shell. rewrite bool_decide_eq_false_2; [reflexivity|].
    intros Hne. now apply Hne. }
  split.
  - split; [|intros H; now rewrite (Hpass H)].
    unfold check_shell. destruct (bool_decide _) eqn:E; [discriminate|].
    intros _. apply bool_decide_eq_false_1 in E.
    destruct (decide (getenv "MSYSTEM" = Some "MINGW64")) as [H|H]; [exact H|].
    now destruct (E H).
  - intros H. split; [exact (Hpass H)|]. rewrite script_executed. unfold main.
    rewrite (bind_Ok _ _ _ tt) by now rewrite (Hpass H).
    rewrite (Hpass H). cbn [out final trace app].
    unfold install_package_deps. rewrite bind_assoc, bind_status. cbn [trace executed].
    rewrite bind_assoc.
    match goal with
    | |- exists _ _, executed (trace (bind (run ?a ?d ?o ?p) ?k ?w0)) = _ =>
        destruct (bind_run_executed a d o p k w0) as [rest Hrest]
    end.
    eexists _, rest. exact Hrest.
Qed.

(** ** More on the package installer *)

Lemma required_count : size SYSTEM_DEPENDENCIES = 95%nat.
Proof. vm_compute. reflexivity. Qed.

Lemma required_not_empty : SYSTEM_DEPENDENCIES ≠ ∅.
Proof.
  intros H. pose proof required_count as Hsize. rewrite H in Hsize.
  rewrite size_empty in Hsize. discriminate Hsize.
Qed.

(** X6. When the package query succeeds and reports none of the required
    packages, the installer starts exactly one install command, and that
    command names every required package once: all 95 of them. *)
Theorem install_everything_on_clean_system w :
  (subprocess_run query_cmd w).1.1 = 0 ->
  (forall p, p ∈ SYSTEM_DEPENDENCIES -> p ∉ installed_packages w) ->
  exists pkgs,
    commands (trace (install_package_deps w)) = [query_cmd; install_cmd pkgs]
    ∧ NoDup pkgs
    ∧ (forall p, p ∈ pkgs <-> p ∈ SYSTEM_DEPENDENCIES)
    ∧ length pkgs = 95%nat.
Proof.
  intros Hrc Hnone.
  assert (Hall : SYSTEM_DEPENDENCIES ∖ installed_packages w = SYSTEM_DEPENDENCIES).
  { apply leibniz_equiv. intros p. rewrite elem_of_difference. split.
    - now intros [Hp _].
    - intros Hp. split; [exact Hp|now apply Hnone]. }
  exists (elements SYSTEM_DEPENDENCIES). split; [|split; [|split]].
  - unfold commands. rewrite install_package_deps_executed. cbv zeta.
    rewrite Hrc, Hall, bool_decide_eq_true_2 by exact required_not_empty.
    reflexivity.
  - apply NoDup_elements.
  - intros p. apply elem_of_elements.
  - exact required_count.
Qed.

Lemma install_package_deps_printed w :
  let rc := (subprocess_run query_cmd w).1.1 in
  let w1 := (subprocess_run query_cmd w).2 in
  let to_install := SYSTEM_DEPENDENCIES ∖ installed_packages w in
  let install := install_cmd (elements to_install) in
  printed (trace (install_package_deps w)) =
    [colored "Checking packages..." "96"; colored "> pacman -Qq" "94"]
      ++ (if rc =? 0 then
            if bool_decide (to_install ≠ ∅) then
              [colored "Installing required dependencies..." "96";
               colored ("> " +:+ Py.join " " (argv install)) "94"]
                ++ (if (subprocess_run install w1).1.1 =? 0
                    then [colored "Installed all required system dependencies." "96"]
                    else [])
            else [colored "All system dependencies have already been installed." "96"]
          else []).
Proof.
  intros rc w1 to_install install. unfold install_package_deps.
  rewrite bind_status. cbn [trace printed]. rewrite bind_run. cbv zeta.
  fold query_cmd. fold rc. fold w1.
  destruct (rc =? 0); [|reflexivity].
  cbn [stdout out final trace app printed].
  fold (installed_packages w). fold to_install.
  destruct (bool_decide (to_install ≠ ∅)); [|reflexivity].
  rewrite bind_status. cbn [trace printed]. rewrite bind_run. cbv zeta.
  fold install.
  now destruct (_ =? 0).
Qed.

(** X7. The console lines of the installer, character by character (each
    line between the escape sequence of its colour, ESC[96m or ESC[94m,
    and ESC[0m).  The banner "Checking packages..." and the announcement
    "> pacman -Qq" are always shown.  After a failed query nothing else is
    printed.  After a successful query whose output has every required
    package as a line, the only other line is "All system dependencies have
    already been installed.".  After a successful query that misses a
    required package, the lines are "Installing required dependencies...",
    the announcement of pacman -S --noconfirm --needed with the missing
    packages, and "Installed all required system dependencies." only when
    that install exited with status 0. *)
Theorem installer_console_report w :
  let query := mkCmd ["pacman"; "-Qq"] None None true in
  let rc := (subprocess_run query w).1.1 in
  let text := (subprocess_run query w).1.2 in
  let w1 := (subprocess_run query w).2 in
  let install pkgs :=
    mkCmd (["pacman"; "-S"; "--noconfirm"; "--needed"] ++ pkgs) None None false in
  let head :=
    [String "027" ("[96mChecking packages..." +:+ String "027" "[0m");
     String "027" ("[94m> pacman -Qq" +:+ String "027" "[0m")] in
  (rc ≠ 0 -> printed (trace (install_package_deps w)) = head)
  ∧ (rc = 0 ->
     (forall p, p ∈ SYSTEM_DEPENDENCIES -> is_line p text) ->
     printed (trace (install_package_deps w)) =
       head ++ [String "027" ("[96mAll system dependencies have already been installed."
                                +:+ String "027" "[0m")])
  ∧ (rc = 0 ->
     (exists p, p ∈ SYSTEM_DEPENDENCIES ∧ ¬ is_line p text) ->
     exists pkgs,
       NoDup pkgs
       ∧ (forall p, p ∈ pkgs <-> p ∈ SYSTEM_DEPENDENCIES ∧ ¬ is_line p text)
       ∧ printed (trace (install_package_deps w)) =
           head
             ++ [String "027" ("[96mInstalling required dependencies..."
                                 +:+ String "027" "[0m");
                 String "027" ("[94m> "
                                 +:+ String.concat " "
                                       (["pacman"; "-S"; "--noconfirm"; "--needed"] ++ pkgs)
                                 +:+ String "027" "[0m")]
             ++ (if (subprocess_run (install pkgs) w1).1.1 =? 0
                 then [String "027" ("[96mInstalled all required system dependencies."
                                       +:+ String "027" "[0m")]
                 else [])).
Proof.
  intros query rc text w1 install head.
  pose proof (install_package_deps_printed w) as H. cbv zeta in H.
  change (subprocess_run query_cmd w) with (subprocess_run query w) in H.
  fold rc w1 in H. split; [|split].
  - intros Hrc. apply Z.eqb_neq in Hrc. rewrite H, Hrc. reflexivity.
  - intros Hrc Hall. rewrite H, Hrc. cbn [Z.eqb].
    rewrite (proj2 (to_install_empty_iff w) Hall).
    rewrite bool_decide_eq_false_2 by (intros Hne; now apply Hne). reflexivity.
  - intros Hrc (p & Hreq & Hnot).
    assert (Hne : SYSTEM_DEPENDENCIES ∖ installed_packages w ≠ ∅).
    { intros Hempty. exact (Hnot (proj1 (to_install_empty_iff w) Hempty p Hreq)). }
    destruct (to_install_missing_lines w) as [Hnodup Hpkgs].
    exists (elements (SYSTEM_DEPENDENCIES ∖ installed_packages w)).
    split; [exact Hnodup|]. split; [exact Hpkgs|].
    rewrite H, Hrc. cbn [Z.eqb]. rewrite bool_decide_eq_true_2 by exact Hne.
    rewrite announce_text. reflexivity.
Qed.

(** ** The application build with PKG_CONFIG_PATH set *)

(** X8. With PKG_CONFIG_PATH set, the application build starts exactly one
    process: waf in deps/ardour with the default options, both compiler
    checks and then the application's own option list.  Its environment is
    the process environment except that PKG_CONFIG_PATH is the old value,
    the path-list separator and C:\mingw64\lib\pkgconfig.  The build
    returns normally exactly when that process exits with status 0. *)
Theorem build_ardour_command path w :
  getenv "PKG_CONFIG_PATH" = Some path ->
  exists cmd rc merged,
    executed (trace (build_ardour w)) = [(cmd, rc)]
    ∧ argv cmd = ["python3"; "waf"; "configure"; "build"; "install";
                  "--prefix=/mingw64"; "--check-c-compiler=gcc";
                  "--check-cxx-compiler=g++"] ++ ARDOUR_OPTIONS
    ∧ cwd cmd = Some "deps/ardour"
    ∧ env cmd = Some merged
    ∧ merged !! "PKG_CONFIG_PATH"
        = Some (path +:+ pathsep +:+ "C:\mingw64\lib\pkgconfig")
    ∧ (forall name, name ≠ "PKG_CONFIG_PATH" -> merged !! name = environ !! name)
    ∧ (out (build_ardour w) = Ok tt <-> rc = 0).
Proof.
  intros Hpath.
  set (overrides := ({[ "PKG_CONFIG_PATH" := path +:+ pathsep +:+ "C:\mingw64\lib\pkgconfig" ]}
                       : gmap string string)).
  set (cmd := waf_cmd [ArgList ARDOUR_OPTIONS] "deps/ardour" "waf" overrides true true).
  exists cmd, (subprocess_run cmd w).1.1, (overrides ∪ environ).
  assert (Heq : build_ardour w =
                  mkRes (if (subprocess_run cmd w).1.1 =? 0 then Ok tt
                         else Raise (ArdentError
                                (failure_message (subprocess_run cmd w).1.1
                                   (Py.join " " (argv cmd)))))
                        (subprocess_run cmd w).2
                        [EPrint (colored "Building Ardour..." "96");
                         EPrint (colored ("> " +:+ Py.join " " (argv cmd)) "94");
                         EExec cmd (subprocess_run cmd w).1.1]).
  { unfold build_ardour. rewrite bind_status, Hpath. fold overrides.
    rewrite waf_eq, bind_run. cbv zeta. fold cmd.
    now destruct (_ =? 0). }
  rewrite Heq. cbn [trace out executed].
  split; [reflexivity|]. split; [reflexivity|]. split; [reflexivity|].
  split; [reflexivity|]. split; [|split].
  - unfold overrides. rewrite lookup_union, lookup_singleton_eq.
    now destruct (environ !! _).
  - intros name Hne. unfold overrides.
    rewrite lookup_union, lookup_singleton_ne by congruence.
    now destruct (environ !! name).
  - destruct (Z.eqb_spec (subprocess_run cmd w).1.1 0) as [Hrc|Hrc].
    + now split.
    + split; [discriminate|]. intros H. contradiction.
Qed.

(** ** The fetcher, entry by entry, in any world *)

Lemma follows_fetch_one d w :
  follows (fetch_one d w)
    (if isdir w (checkout_dir (fst d) "deps") then []
     else clone_cmd (fst d) "deps" :: map patch_cmd (snd d)).
Proof.
  destruct (isdir w (checkout_dir (fst d) "deps")) eqn:E.
  - rewrite (fetch_one_present d w E). now apply follows_silent.
  - unfold fetch_one.
    change (clone_cmd d.1 "deps" :: map patch_cmd d.2)
      with ([clone_cmd d.1 "deps"] ++ map patch_cmd d.2).
    apply follows_bind.
    + unfold clone. rewrite bind_isdir. fold (checkout_dir d.1 "deps"). rewrite E.
      cbn [negb]. cbv iota. eapply follows_eq; [follow|reflexivity].
    + intros a Ha. rewrite (clone_absent _ _ _ E) in Ha. cbv zeta in Ha. cbn [out] in Ha.
      destruct (_ =? 0); [|discriminate Ha]. injection Ha as <-.
      apply follows_patch_all.
Qed.

Lemma fails_only_by_exit_clone url target_dir w :
  fails_only_by_exit (clone url target_dir w).
Proof. unfold clone. rewrite bind_isdir. destruct (isdir w _); cbn [negb]; cbv iota; only_exit. Qed.

Lemma fails_only_by_exit_fetch_one d w : fails_only_by_exit (fetch_one d w).
Proof.
  unfold fetch_one. apply fails_only_by_exit_bind; [apply fails_only_by_exit_clone|].
  intros [] _; [apply fails_only_by_exit_patch_all|now apply (fails_only_by_exit_Ok _ tt)].
Qed.

Lemma Built_patch_all names : Built (fun _ => True) (patch_all names).
Proof.
  induction names as [|n names IH]; cbn [patch_all]; [apply Built_ret|].
  apply Built_bind; [now apply Built_patch|intros _; exact IH].
Qed.

Lemma Built_fetch_one d : Built (fun _ => True) (fetch_one d).
Proof.
  unfold fetch_one. apply Built_bind; [now apply Built_clone|].
  intros []; [apply Built_patch_all|apply Built_ret].
Qed.

Lemma final_bind {A B} (m : M A) (k : A -> M B) w :
  final (bind m k w) =
    match out (m w) with
    | Ok a => final (k a (final (m w)))
    | Raise _ => final (m w)
    end.
Proof. unfold bind. now destruct (out (m w)). Qed.

Lemma final_patch_all names w :
  final (patch_all names w) = run_commands (map patch_cmd names) w.
Proof.
  revert w. induction names as [|n names IH]; intros w; [reflexivity|].
  cbn [patch_all map run_commands]. rewrite final_bind.
  unfold patch. rewrite bind_run. cbv zeta. fold (patch_cmd n).
  destruct (_ =? 0); cbn [out final ret]; [apply IH|reflexivity].
Qed.

Lemma final_fetch_one d w :
  final (fetch_one d w) =
    run_commands (if isdir w (checkout_dir (fst d) "deps") then []
                  else clone_cmd (fst d) "deps" :: map patch_cmd (snd d)) w.
Proof.
  unfold fetch_one. rewrite final_bind.
  destruct (isdir w (checkout_dir d.1 "deps")) eqn:E.
  - now rewrite (clone_present _ _ _ E).
  - rewrite (clone_absent _ _ _ E). cbv zeta. cbn [out final run_commands].
    destruct (_ =? 0); [apply final_patch_all|reflexivity].
Qed.

Lemma fetch_all_answers names l w :
  names = map (fun d => Py.last_item (Py.split "/" (fst d))) l ->
  follows (fetch_all l w) (fetch_plan (fetch_answers names l w) l)
  ∧ fails_only_by_exit (fetch_all l w).
Proof.
  intros ->. revert w. induction l as [|d l IH]; intros w.
  - split; [now apply follows_silent|now apply (fails_only_by_exit_Ok _ tt)].
  - cbn [fetch_all map fetch_answers fetch_plan]. cbv zeta.
    change ("deps" +:+ sep +:+ Py.last_item (Py.split "/" d.1))
      with (checkout_dir d.1 "deps").
    rewrite <- final_fetch_one.
    destruct (IH (final (fetch_one d w))) as [Hf Hx]. split.
    + apply follows_bind; [apply follows_fetch_one|intros _ _; exact Hf].
    + apply fails_only_by_exit_bind; [apply fails_only_by_exit_fetch_one|].
      intros _ _. exact Hx.
Qed.

(** X9. In any world, the fetcher goes through the fetch list in order.
    The existence check of the first entry is answered in the starting
    world, that of each later entry in the world left by the commands run
    for the entries before it; the directories looked for are jack2,
    aubio, liblo, libltc, LRDF, raptor, lv2kit and ardour in deps.  The
    processes started are a run, stopping at the first failure, of: for
    each absent entry its clone followed by its patches, and nothing for
    an entry that is present.  When no process fails the whole plan runs
    and the fetcher returns. *)
Theorem fetch_libraries_plan w :
  let answers := fetch_answers CHECKOUT_NAMES FETCH_LIST w in
  let plan := fetch_plan answers FETCH_LIST in
  length answers = 8%nat
  ∧ runs_of plan (executed (trace (fetch_libraries w)))
  ∧ (Forall (fun x => x.2 = 0) (executed (trace (fetch_libraries w))) ->
       out (fetch_libraries w) = Ok tt
       ∧ commands (trace (fetch_libraries w)) = plan).
Proof.
  intros answers plan. split; [reflexivity|].
  destruct (fetch_all_answers CHECKOUT_NAMES FETCH_LIST w eq_refl) as [Hf Hx].
  fold answers in Hf. fold plan in Hf.
  assert (Hf' : follows (fetch_libraries w) plan).
  { rewrite fetch_libraries_table. now apply follows_status_bind. }
  assert (Hx' : fails_only_by_exit (fetch_libraries w)).
  { rewrite fetch_libraries_table. now apply fails_only_by_exit_status_bind. }
  split; [apply Hf'|]. intros Hzero.
  destruct (no_failure_complete _ _ Hf' Hx' Hzero) as [[[] Hout] Hex].
  split; [exact Hout|now apply commands_all_ok].
Qed.

(** ** The commands of a run *)

Ltac in_list := repeat (first [left; reflexivity|right]).

Lemma Built_fetch_libraries_listed : Built is_fetch fetch_libraries.
Proof.
  unfold fetch_libraries.
  repeat first
    [ apply Built_clone; left; eexists; split; [|reflexivity]; cbn [map fst FETCH_LIST]; in_list
    | apply Built_patch; right; eexists; split; [|reflexivity];
      cbn [map snd concat app FETCH_LIST]; in_list
    | apply Built_ret | apply Built_status | apply Built_bind | intro
    | match goal with |- Built _ (if ?b then _ else _) => destruct b end ].
Qed.

Lemma Built_build_libraries_listed : Built is_library_build build_libraries.
Proof.
  assert (Hin : forall c, In c (library_builds false) -> is_library_build c)
    by (intros c Hc; now exists false).
  unfold build_libraries.
  apply Built_bind; [apply Built_status|intros _].
  apply Built_bind; [apply Built_waf, Hin; in_list|intros _].
  do 4 (apply Built_bind;
          [apply Built_ac; repeat (constructor; [apply Hin; in_list|]); constructor
          |intros _]).
  apply Built_bind;
    [apply Built_meson; repeat (constructor; [apply Hin; in_list|]); constructor
    |intros _].
  apply Built_waf, Hin. in_list.
Qed.

Lemma Built_build_ardour_listed : Built is_ardour_build build_ardour.
Proof.
  unfold build_ardour. apply Built_bind; [apply Built_status|intros _].
  destruct (getenv "PKG_CONFIG_PATH") as [path|] eqn:E; [|apply Built_raise].
  apply Built_waf. exists path. split; [exact E|now left].
Qed.

Lemma Built_main_listed : Built script_command main.
Proof.
  unfold main, script_command.
  apply Built_bind; [apply Built_check_shell|intros _].
  apply Built_bind;
    [eapply Built_weaken; [|apply Built_install_package_deps]; now left|intros _].
  apply Built_bind;
    [eapply Built_weaken; [|apply Built_fetch_libraries_listed]; intros c H; right; now left
    |intros _].
  apply Built_bind;
    [eapply Built_weaken; [|apply Built_build_libraries_listed];
       intros c H; right; right; now left
    |intros _].
  eapply Built_weaken; [|apply Built_build_ardour_listed].
  intros c H. right. right. now right.
Qed.

Lemma library_build_facts c :
  is_library_build c ->
  is_build c = true ∧ stdout_pipe c = false ∧ cwd c ≠ Some "deps/ardour"
  ∧ exists d, cwd c = Some d ∧ String.prefix "deps/" d = true.
Proof.
  intros [present Hin]. unfold library_builds in Hin.
  destruct present; cbn in Hin;
    repeat (destruct Hin as [<-|Hin];
            [repeat split; [discriminate|eexists; split; reflexivity]|]);
    destruct Hin.
Qed.

Lemma ardour_build_facts c :
  is_ardour_build c ->
  is_build c = true ∧ stdout_pipe c = false ∧ cwd c = Some "deps/ardour".
Proof. intros (path & _ & [<-|[]]). now repeat split. Qed.

Lemma script_commands_listed w c :
  In c (commands (trace (script w))) -> script_command c.
Proof.
  unfold commands. rewrite script_executed. fold (commands (trace (main w))).
  pose proof (Built_sat _ _ Built_main_listed w) as H.
  rewrite List.Forall_forall in H. apply H.
Qed.

(** X10. The script never starts a process other than: the package query
    or an install command; the clone into deps of a listed URL or a listed
    patch; a library build command; the application build command.  Hence
    the only process whose output is captured is the package query; the
    package manager and patch run in the script's own working directory,
    the clones in deps, and every build below deps/. *)
Theorem only_listed_commands w c :
  In c (commands (trace (script w))) ->
  script_command c
  ∧ (stdout_pipe c = true <-> c = query_cmd)
  ∧ (cwd c = None <-> is_pacman c ∨ exists patch_name, c = patch_cmd patch_name)
  ∧ (forall d, cwd c = Some d -> d = "deps" ∨ String.prefix "deps/" d = true).
Proof.
  intros Hin. pose proof (script_commands_listed w c Hin) as Hc.
  split; [exact Hc|].
  destruct Hc as [[->|[pkgs ->]]|[[(url & _ & ->)|(n & _ & ->)]|[Hlib|Hard]]].
  - repeat split; try discriminate. intros _. left. now left.
  - repeat split; try discriminate. intros _. left. right. now exists pkgs.
  - repeat split; try discriminate.
    + intros [[H|[pkgs H]]|[n H]]; discriminate H.
    + intros d H. injection H as <-. now left.
  - repeat split; try discriminate. intros _. right. now exists n.
  - destruct (library_build_facts c Hlib) as (Hb & Hp & _ & d & Hd & Hpre).
    split; [|split].
    + rewrite Hp. split; [discriminate|]. intros ->. discriminate Hp.
    + rewrite Hd. split; [discriminate|].
      intros [[->|[pkgs ->]]|[n ->]]; discriminate Hb.
    + intros d' H. rewrite Hd in H. injection H as <-. now right.
  - destruct (ardour_build_facts c Hard) as (Hb & Hp & Hd).
    split; [|split].
    + rewrite Hp. split; [discriminate|]. intros ->. discriminate Hp.
    + rewrite Hd. split; [discriminate|].
      intros [[->|[pkgs ->]]|[n ->]]; discriminate Hb.
    + intros d' H. rewrite Hd in H. injection H as <-. now right.
Qed.

Lemma bind_commands {A B} (m : M A) (k : A -> M B) w :
  exists rest,
    commands (trace (bind m k w)) = commands (trace (m w)) ++ rest
    ∧ (rest = [] ∨ exists a, rest = commands (trace (k a (final (m w))))).
Proof.
  destruct (out (m w)) as [a|e] eqn:E.
  - rewrite (bind_Ok _ _ _ _ E). cbn [trace]. rewrite commands_app.
    eexists. split; [reflexivity|]. right. now exists a.
  - rewrite (bind_Raise _ _ _ _ E). cbn [trace]. exists [].
    split; [now rewrite app_nil_r|now left].
Qed.

(** X11. Every run, failed or not, goes through its phases in order: first
    the package-manager commands, then the fetch commands (clones and
    patches), then the build commands.  No build starts before the fetcher
    is done and no fetch before the installer is done. *)
Theorem run_phases w :
  exists pk ft bd,
    commands (trace (script w)) = pk ++ ft ++ bd
    ∧ Forall is_pacman pk
    ∧ Forall is_fetch ft
    ∧ Forall (fun c => is_library_build c ∨ is_ardour_build c) bd.
Proof.
  unfold commands. rewrite script_executed. fold (commands (trace (main w))).
  unfold main.
  destruct (bind_commands check_shell
              (fun _ => bind install_package_deps (fun _ => bind fetch_libraries
                 (fun _ => bind build_libraries (fun _ => build_ardour)))) w)
    as (r0 & -> & H0).
  rewrite (proj2 (check_shell_silent w)). cbn [commands executed map app].
  destruct H0 as [->|[[] ->]]; [exists [], [], []; now repeat constructor|].
  rewrite (proj1 (check_shell_silent w)).
  destruct (bind_commands install_package_deps
              (fun _ => bind fetch_libraries
                 (fun _ => bind build_libraries (fun _ => build_ardour))) w)
    as (r1 & -> & H1).
  exists (commands (trace (install_package_deps w))).
  pose proof (Built_sat _ _ Built_install_package_deps w) as Hpk.
  destruct H1 as [->|[[] ->]];
    [exists [], []; split; [reflexivity|]; split; [exact Hpk|now split; constructor]|].
  set (w1 := final (install_package_deps w)).
  destruct (bind_commands fetch_libraries
              (fun _ => bind build_libraries (fun _ => build_ardour)) w1)
    as (r2 & -> & H2).
  exists (commands (trace (fetch_libraries w1))).
  pose proof (Built_sat _ _ Built_fetch_libraries_listed w1) as Hft.
  destruct H2 as [->|[[] ->]];
    [exists []; split; [reflexivity|]; split; [exact Hpk|]; split; [exact Hft|constructor]|].
  eexists. split; [reflexivity|]. split; [exact Hpk|]. split; [exact Hft|].
  apply (Built_sat (fun c => is_library_build c ∨ is_ardour_build c)).
  apply Built_bind.
  - eapply Built_weaken; [|apply Built_build_libraries_listed]. intros c H. now left.
  - intros _. eapply Built_weaken; [|apply Built_build_ardour_listed]. intros c H. now right.
Qed.

(** ** The application build comes after successful library builds *)

Lemma before_ardour_not_in_ardour w c :
  In c (commands (trace (main_before_ardour w))) -> cwd c ≠ Some "deps/ardour".
Proof.
  assert (HB : Built (fun c => cwd c ≠ Some "deps/ardour") main_before_ardour).
  { unfold main_before_ardour.
    apply Built_bind; [apply Built_check_shell|intros _].
    apply Built_bind;
      [eapply Built_weaken; [|apply Built_install_package_deps];
         intros c0 [->|[pkgs ->]]; discriminate|intros _].
    apply Built_bind;
      [eapply Built_weaken; [|apply Built_fetch_libraries_listed];
         intros c0 [(url & _ & ->)|(n & _ & ->)]; discriminate|intros _].
    eapply Built_weaken; [|apply Built_build_libraries_listed].
    intros c0 H. now destruct (library_build_facts c0 H) as (_ & _ & Hd & _). }
  pose proof (Built_sat _ _ HB w) as H. rewrite List.Forall_forall in H. apply H.
Qed.

Lemma build_ardour_executed w :
  executed (trace (build_ardour w)) =
    match getenv "PKG_CONFIG_PATH" with
    | Some path =>
        [(waf_cmd [ArgList ARDOUR_OPTIONS] "deps/ardour" "waf"
            {[ "PKG_CONFIG_PATH" := path +:+ pathsep +:+ "C:\mingw64\lib\pkgconfig" ]}
            true true,
          (subprocess_run
             (waf_cmd [ArgList ARDOUR_OPTIONS] "deps/ardour" "waf"
                {[ "PKG_CONFIG_PATH" := path +:+ pathsep +:+ "C:\mingw64\lib\pkgconfig" ]}
                true true) w).1.1)]
    | None => []
    end.
Proof.
  unfold build_ardour. rewrite bind_status. cbn [trace executed].
  destruct (getenv "PKG_CONFIG_PATH") as [path|]; [|reflexivity].
  rewrite waf_eq, bind_run. cbv zeta. now destruct (_ =? 0).
Qed.

(** X12. A process in deps/ardour (the application build) is started only
    after [main] has gone through the shell check, the installer, the
    fetcher and the library builds without error: the processes just
    before it are the complete run of the library builds, every one with
    exit status 0, and it is the last process of the run. *)
Theorem ardour_build_after_library_builds w c rc :
  In (c, rc) (executed (trace (script w))) ->
  cwd c = Some "deps/ardour" ->
  out (main_before_ardour w) = Ok tt
  ∧ exists pre present,
      executed (trace (script w)) = pre ++ all_ok (library_builds present) ++ [(c, rc)].
Proof.
  rewrite script_executed, main_split. intros Hin Hcwd.
  assert (Hnot : ~ In (c, rc) (executed (trace (main_before_ardour w)))).
  { intros H. apply (before_ardour_not_in_ardour w c); [|exact Hcwd].
    unfold commands. now apply (in_map fst) in H. }
  destruct (out (main_before_ardour w)) as [[]|e] eqn:E.
  2:{ rewrite (bind_Raise _ _ _ _ E) in Hin. now destruct (Hnot Hin). }
  split; [reflexivity|].
  rewrite (bind_Ok _ _ _ _ E) in Hin |- *. cbn [trace] in Hin |- *.
  rewrite executed_app in Hin |- *.
  apply in_app_or in Hin as [Hin|Hin]; [now destruct (Hnot Hin)|].
  assert (Hlast : executed (trace (build_ardour (final (main_before_ardour w)))) = [(c, rc)]).
  { rewrite build_ardour_executed in Hin |- *.
    destruct (getenv "PKG_CONFIG_PATH") as [path|]; [|destruct Hin].
    destruct Hin as [H|[]]. now rewrite H. }
  rewrite Hlast. clear Hin Hlast Hnot.
  unfold main_before_ardour in E |- *.
  destruct (bind_Ok_trace _ _ _ _ E) as ([] & _ & H1 & ->).
  destruct (bind_Ok_trace _ _ _ _ H1) as ([] & _ & H2 & ->).
  destruct (bind_Ok_trace _ _ _ _ H2) as ([] & _ & H3 & ->).
  revert H3. set (w3 := final (fetch_libraries _)). intros H3.
  destruct (follows_build_libraries w3) as (w' & _ & Hlibs).
  rewrite !executed_app, (follows_ok _ _ Hlibs tt H3).
  match goal with
  | |- exists _ _, (?e0 ++ ?e1 ++ ?e2 ++ all_ok (library_builds ?p)) ++ _ = _ =>
      exists (e0 ++ e1 ++ e2), p
  end.
  now rewrite <- !app_assoc.
Qed.

(** ** Where an error can come from *)

Lemma explained_of_exit {A} (r : Res A) : fails_only_by_exit r -> explained r.
Proof. intros H e He. right. right. exact (H e He). Qed.

Lemma explained_bind {A B} (m : M A) (k : A -> M B) w :
  explained (m w) ->
  (forall a, out (m w) = Ok a -> explained (k a (final (m w)))) ->
  explained (bind m k w).
Proof.
  intros Hm Hk e. destruct (out (m w)) as [a|e'] eqn:E.
  - rewrite (bind_Ok _ _ _ _ E). cbn [out trace]. intros He.
    destruct (Hk a eq_refl e He) as [H|[H|(c & rc & Hin & Hrc)]]; [now left|right; now left|].
    right. right. exists c, rc. split; [|exact Hrc].
    rewrite executed_app. apply in_or_app. now right.
  - rewrite (bind_Raise _ _ _ _ E). cbn [out trace]. intros He.
    injection He as <-. exact (Hm e' E).
Qed.

Lemma run_Ok_stdout args0 dir overrides w r :
  out (run args0 dir overrides true w) = Ok r -> exists text, stdout r = Some text.
Proof.
  rewrite run_eq. cbv zeta. cbn [out]. destruct (_ =? 0); [|discriminate].
  intros H. injection H as <-. now eexists.
Qed.

Lemma fails_only_by_exit_install_package_deps w :
  fails_only_by_exit (install_package_deps w).
Proof.
  unfold install_package_deps. apply fails_only_by_exit_status_bind.
  apply fails_only_by_exit_bind; [apply fails_only_by_exit_run|].
  intros q Hq. destruct (run_Ok_stdout _ _ _ _ _ Hq) as [text ->].
  destruct (bool_decide _); only_exit.
Qed.

Lemma fails_only_by_exit_waf args dir waf_ overrides c cxx w :
  fails_only_by_exit (waf args dir waf_ overrides c cxx w).
Proof. rewrite waf_eq. only_exit. Qed.

Lemma fails_only_by_exit_build_libraries w : fails_only_by_exit (build_libraries w).
Proof.
  unfold build_libraries. apply fails_only_by_exit_status_bind.
  apply fails_only_by_exit_bind; [apply fails_only_by_exit_waf|intros _ _].
  do 4 (apply fails_only_by_exit_bind; [apply fails_only_by_exit_ac|intros _ _]).
  apply fails_only_by_exit_bind; [apply fails_only_by_exit_meson|intros _ _].
  apply fails_only_by_exit_waf.
Qed.

Lemma fails_only_by_exit_fetch_libraries w : fails_only_by_exit (fetch_libraries w).
Proof.
  rewrite fetch_libraries_table. apply fails_only_by_exit_status_bind.
  exact (proj2 (fetch_all_answers CHECKOUT_NAMES FETCH_LIST w eq_refl)).
Qed.

Lemma explained_main w : explained (main w).
Proof.
  unfold main. apply explained_bind.
  { intros e. unfold check_shell. destruct (bool_decide _) eqn:E; [|discriminate].
    apply bool_decide_eq_true_1 in E. intros H. injection H as <-. now left. }
  intros _ _. apply explained_bind;
    [apply explained_of_exit, fails_only_by_exit_install_package_deps|intros _ _].
  apply explained_bind;
    [apply explained_of_exit, fails_only_by_exit_fetch_libraries|intros _ _].
  apply explained_bind;
    [apply explained_of_exit, fails_only_by_exit_build_libraries|intros _ _].
  unfold build_ardour.
  match goal with |- explained (bind (status ?m ?c) ?k ?w0) =>
    rewrite (bind_status m c k w0) end.
  intros e. cbn [out trace executed].
  destruct (getenv "PKG_CONFIG_PATH") as [path|] eqn:E.
  - intros He. right. right. exact (fails_only_by_exit_waf _ _ _ _ _ _ _ e He).
  - intros He. injection He as <-. right. now left.
Qed.

(** X13. Where the script's own error comes from.  Whenever the script
    ends with an [ArdentError], its message is the last console line,
    between the escape sequences ESC[91m and ESC[0m, and one of two things
    happened.  Either MSYSTEM is not MINGW64, the message is the advice to
    use an MSYS2 shell, and no process was started; or the last process
    started exited with a non-zero status, and the message is a newline,
    "Failed to run subprocess (exit code N):" with N that status in
    decimal, a newline, and the arguments of that process joined by single
    spaces. *)
Theorem ardent_error_origin w message :
  out (script w) = Raise (ArdentError message) ->
  (exists tr,
     trace (script w)
       = tr ++ [EPrint (String "027" ("[91m" +:+ message +:+ String "027" "[0m"))])
  ∧ ((environ !! "MSYSTEM" ≠ Some "MINGW64"
      ∧ message = "Ardent should be executed from a MSYS2 shell. If you don't have MSYS2, you can install it from https://www.msys2.org/."
      ∧ executed (trace (script w)) = [])
     ∨ exists c rc earlier,
         executed (trace (script w)) = earlier ++ [(c, rc)]
         ∧ rc ≠ 0
         ∧ message =
             String "010" ("Failed to run subprocess (exit code "
                             +:+ NilZero.string_of_int (Z.to_int rc) +:+ "):"
                             +:+ String "010" (String.concat " " (argv c)))).
Proof.
  rewrite script_out. intros He. split.
  - exists (trace (main w)). now rewrite (script_ArdentError w message He).
  - rewrite script_executed.
    destruct (explained_main w _ He) as [[Hm Henv]|[[Hm _]|(c & rc & Hin & Hrc)]].
    + left. injection Hm as ->. split; [exact Henv|]. split; [reflexivity|].
      unfold main. rewrite (bind_Raise _ _ _ (ArdentError shell_message));
        unfold check_shell; rewrite bool_decide_eq_true_2 by exact Henv; reflexivity.
    + discriminate Hm.
    + right. destruct (Built_disciplined _ _ Built_main w c rc Hin Hrc) as [Hout [tr Htr]].
      exists c, rc, (executed tr). split; [|split; [exact Hrc|]].
      * rewrite Htr, executed_app. reflexivity.
      * rewrite He in Hout. injection Hout as ->.
        now rewrite join_concat, failure_message_text.
Qed.

End Script.

Arguments mkRes {World A} _ _ _.
Arguments out {World A} _.
Arguments final {World A} _.
Arguments trace {World A} _.

(** ** The script on the simulated machine *)

Local Abbreviation sim_script env := (script Sim.isdir Sim.subprocess_run env "/" ";").
Local Abbreviation after_first_run := (final (sim_script Sim.environ_ok Sim.fresh)).




Lemma not_In_by_argv (c : Cmd) (l : list Cmd) :
  bool_decide (argv c ∈ map argv l) = false -> ~ In c l.
Proof.
  intros H Hin. apply bool_decide_eq_false_1 in H. apply H.
  apply list_elem_of_In, in_map, Hin.
Qed.

(** A first run on the fresh machine succeeds and creates every directory
    and installs every package. *)
Example first_run_succeeds :
  out (sim_script Sim.environ_ok Sim.fresh) = Ok tt
  ∧ length (commands (trace (sim_script Sim.environ_ok Sim.fresh))) = 32%nat
  ∧ all_present Sim.isdir "/" after_first_run = true
  ∧ all_installed Sim.subprocess_run after_first_run = true.
Proof. vm_compute. repeat split. Qed.



(** In an MSYS shell (MSYSTEM is MSYS) the script only reports the
    environment error. *)
Lemma C2_wrong_shell_witness :
  getenv Sim.environ_wrong_shell "MSYSTEM" ≠ Some "MINGW64"
  ∧ sim_script Sim.environ_wrong_shell Sim.fresh =
      mkRes (Raise (ArdentError shell_message)) Sim.fresh
            [EPrint (colored shell_message "91")].
Proof.
  assert (H : getenv Sim.environ_wrong_shell "MSYSTEM" ≠ Some "MINGW64")
    by (vm_compute; discriminate).
  split; [exact H|].
  apply (C2_wrong_shell_no_side_effect Sim.isdir Sim.subprocess_run
           Sim.environ_wrong_shell "/" ";" Sim.fresh H).
Defined.

(** A machine on which [make install] exits with status 1. *)
Local Abbreviation make_fails := (Sim.fresh_failing [["make"; "install"]]).

(** The failure of [make install] in deps/liblo ends the run with its
    error: the message and the console line, character by character. *)
Lemma C3_failure_witness :
  out (sim_script Sim.environ_ok make_fails)
    = Raise (ArdentError
        (String "010" ("Failed to run subprocess (exit code 1):"
                         +:+ String "010" "make install")))
  ∧ List.last (trace (sim_script Sim.environ_ok make_fails)) (EPrint "")
      = EPrint (String "027" ("[91m"
          +:+ String "010" ("Failed to run subprocess (exit code 1):"
                              +:+ String "010" "make install")
          +:+ String "027" "[0m"))
  ∧ exit_status (out (sim_script Sim.environ_ok make_fails)) ≠ 0.
Proof.
  pose proof (proj2 (C3_failure_terminates_run Sim.isdir Sim.subprocess_run
                       Sim.environ_ok "/" ";") make_fails
                (mkCmd ["make"; "install"] (Some "deps/liblo") None false) 1) as H.
  cbv zeta in H.
  assert (Hin : In (mkCmd ["make"; "install"] (Some "deps/liblo") None false, 1)
                   (executed (trace (sim_script Sim.environ_ok make_fails))))
    by (apply (nth_error_In _ 19); vm_compute; reflexivity).
  assert (Hrc : 1 ≠ 0) by discriminate.
  pose proof (H Hin Hrc) as (_ & _ & _ & _ & Htrace & Hout & Hexit).
  split; [exact Hout|]. split; [|exact Hexit].
  rewrite Htrace. apply last_last.
Defined.

(** The aubio build as [build_libraries] calls it: the caller's option
    comes last on the command line. *)
Lemma C8_waf_command_witness :
  map (fun x : Cmd * Z => argv x.1)
      (executed (trace (waf Sim.subprocess_run Sim.environ_ok
                          [ArgList ["--disable-tests"]] "deps/aubio" "../ardour/waf"
                          ∅ true false Sim.fresh)))
    = [["python3"; "../ardour/waf"; "configure"; "build"; "install";
        "--prefix=/mingw64"; "--check-c-compiler=gcc"; "--disable-tests"]].
Proof.
  destruct (C8_waf_command Sim.subprocess_run Sim.environ_ok
              [ArgList ["--disable-tests"]] "deps/aubio" "../ardour/waf" ∅ true false
              Sim.fresh) as (cmd & rc & merged & Hex & Hargv & _).
  rewrite Hex. cbn [map fst]. now rewrite Hargv.
Defined.

Local Abbreviation aubio := "https://github.com/aubio/aubio".

(** On the fresh machine aubio is cloned, [clone] returns True, and its
    patch is applied right after the clone. *)
Lemma C4_fetch_entry_witness :
  Sim.isdir Sim.fresh ("deps" +:+ "/" +:+ Py.last_item (Py.split "/" aubio)) = false
  ∧ out (clone Sim.isdir Sim.subprocess_run "/" aubio "deps" Sim.fresh) = Ok true
  ∧ commands (trace (fetch_one Sim.isdir Sim.subprocess_run "/"
                       (aubio, ["aubio_priv.h.patch"]) Sim.fresh))
      = [clone_cmd aubio "deps"; patch_cmd "aubio_priv.h.patch"].
Proof.
  destruct (C4_fetch_entry Sim.isdir Sim.subprocess_run "/") as (_ & _ & H).
  specialize (H aubio ["aubio_priv.h.patch"] Sim.fresh).
  cbv zeta in H.
  assert (Hin : In (aubio, ["aubio_priv.h.patch"]) FETCH_LIST)
    by (right; left; reflexivity).
  assert (Habsent : Sim.isdir Sim.fresh
                      ("deps" +:+ "/" +:+ Py.last_item (Py.split "/" aubio)) = false)
    by (vm_compute; reflexivity).
  assert (Hrc : (Sim.subprocess_run (clone_cmd aubio "deps") Sim.fresh).1.1 = 0)
    by (vm_compute; reflexivity).
  pose proof (proj2 (H Hin) Habsent) as (_ & H0 & _).
  pose proof (H0 Hrc) as (Hclone & ex & Hex & _ & Hall).
  split; [exact Habsent|]. split; [exact Hclone|].
  unfold commands. rewrite Hex.
  assert (Hzero : Forall (fun x : Cmd * Z => x.2 = 0) ex).
  { injection Hex as <-. vm_compute. repeat constructor. }
  now rewrite (proj2 (Hall Hzero)).
Defined.

(** C4 as stated fails: the checkout is absent and [git clone] exits with
    status 1; the fetcher raises instead of returning True and the patch of
    aubio is never applied. *)
Lemma C4_counterexample :
  let w := Sim.fresh_failing [["git"; "clone"; "--recurse-submodules"; aubio]] in
  In (aubio, ["aubio_priv.h.patch"]) FETCH_LIST
  ∧ Sim.isdir w ("deps" +:+ "/" +:+ Py.last_item (Py.split "/" aubio)) = false
  ∧ out (clone Sim.isdir Sim.subprocess_run "/" aubio "deps" w) ≠ Ok true
  ∧ commands (trace (fetch_one Sim.isdir Sim.subprocess_run "/"
                       (aubio, ["aubio_priv.h.patch"]) w))
      = [clone_cmd aubio "deps"].
Proof.
  intros w. split; [right; left; reflexivity|].
  split; [vm_compute; reflexivity|].
  split; [vm_compute; discriminate|vm_compute; reflexivity].
Qed.

(** A machine on which git and patch are installed: the query prints
    them one per line, and the install command names flex but neither of
    them. *)
Local Abbreviation git_and_patch := (Sim.mkWorld [] ["git"; "patch"] []).

Lemma C5_install_witness :
  (Sim.subprocess_run (mkCmd ["pacman"; "-Qq"] None None true) git_and_patch).1.2
    = "git" +:+ String "010" ("patch" +:+ String "010" "")
  ∧ exists pkgs,
      commands (trace (install_package_deps Sim.subprocess_run git_and_patch))
        = [mkCmd ["pacman"; "-Qq"] None None true;
           mkCmd (["pacman"; "-S"; "--noconfirm"; "--needed"] ++ pkgs) None None false]
      ∧ ("flex" ∈ pkgs) ∧ ("git" ∉ pkgs) ∧ ("patch" ∉ pkgs).
Proof.
  split; [vm_compute; reflexivity|].
  pose proof (C5_install_set_difference Sim.subprocess_run git_and_patch) as H.
  cbv zeta in H. destruct H as (_ & _ & H).
  assert (Hflex : "flex" ∈ SYSTEM_DEPENDENCIES
                  ∧ ¬ is_line "flex" (Sim.subprocess_run query_cmd git_and_patch).1.2).
  { split; [apply (bool_decide_unpack _); vm_compute; exact I|].
    intros Hline. apply split_is_piece in Hline. revert Hline.
    vm_compute. intros [H0|[H0|[H0|[]]]]; discriminate H0. }
  assert (Hrc : (Sim.subprocess_run query_cmd git_and_patch).1.1 = 0) by reflexivity.
  destruct (H (ex_intro _ "flex" Hflex) Hrc) as (pkgs & Hcommands & _ & Hpkgs).
  exists pkgs. split; [exact Hcommands|]. split; [now apply Hpkgs|].
  split; intros Hin; apply Hpkgs in Hin as [_ Hnot]; apply Hnot, split_is_piece;
    vm_compute; tauto.
Defined.

(** The first run on the fresh machine succeeds and builds in the fixed
    order. *)
Lemma C6_build_order_witness :
  exists present path,
    List.filter is_build (commands (trace (sim_script Sim.environ_ok Sim.fresh))) =
      jack2_build Sim.environ_ok ++ liblo_build Sim.environ_ok
        ++ libltc_build Sim.environ_ok ++ raptor_build Sim.environ_ok
        ++ LRDF_build Sim.environ_ok ++ lv2kit_build "/" present
        ++ aubio_build Sim.environ_ok ++ ardour_build Sim.environ_ok ";" path.
Proof.
  destruct (C6_build_order Sim.isdir Sim.subprocess_run Sim.environ_ok "/" ";"
              Sim.fresh) as (present & path & _ & H & _).
  - vm_compute. reflexivity.
  - exists present, path. exact H.
Defined.

(** On the fresh machine the build directory is absent and no step fails:
    setup, configure, compile and install all run. *)
Lemma C7_meson_witness :
  Sim.isdir Sim.fresh ("deps/lv2kit" +:+ "/" +:+ "build") = false
  ∧ out (meson Sim.isdir Sim.subprocess_run "/" [ArgList ["-Dcxx=true"]]
           "deps/lv2kit" Sim.fresh) = Ok tt
  ∧ commands (trace (meson Sim.isdir Sim.subprocess_run "/" [ArgList ["-Dcxx=true"]]
                       "deps/lv2kit" Sim.fresh))
      = meson_setup_cmd "deps/lv2kit" :: meson_steps "/" [ArgList ["-Dcxx=true"]] "deps/lv2kit".
Proof.
  pose proof (C7_meson_steps Sim.isdir Sim.subprocess_run "/"
                [ArgList ["-Dcxx=true"]] "deps/lv2kit" Sim.fresh) as H.
  cbv zeta in H. destruct H as (_ & _ & _ & H & _).
  assert (Habsent : Sim.isdir Sim.fresh ("deps/lv2kit" +:+ "/" +:+ "build") = false)
    by (vm_compute; reflexivity).
  assert (Hzero : Forall (fun x : Cmd * Z => x.2 = 0)
                    (executed (trace (meson Sim.isdir Sim.subprocess_run "/"
                                        [ArgList ["-Dcxx=true"]] "deps/lv2kit" Sim.fresh))))
    by (vm_compute; repeat constructor).
  rewrite Habsent in H. split; [exact Habsent|]. exact (H Hzero).
Defined.

(** C7 as stated fails: when [meson configure] exits with status 1 the
    wrapper raises there; compile and install are never started. *)
Lemma C7_counterexample :
  let w := Sim.fresh_failing [["meson"; "configure"; "-Dcxx=true"]] in
  let r := meson Sim.isdir Sim.subprocess_run "/" [ArgList ["-Dcxx=true"]]
             "deps/lv2kit" w in
  executed (trace r)
    = [ (meson_setup_cmd "deps/lv2kit", 0);
        (mkCmd ["meson"; "configure"; "-Dcxx=true"] (Some "deps/lv2kit/build") None false, 1) ]
  ∧ ~ In (mkCmd ["meson"; "compile"] (Some "deps/lv2kit/build") None false)
         (commands (trace r))
  ∧ ~ In (mkCmd ["meson"; "install"] (Some "deps/lv2kit/build") None false)
         (commands (trace r))
  ∧ out r = Raise (ArdentError (failure_message 1 "meson configure -Dcxx=true")).
Proof.
  intros w r. split; [vm_compute; reflexivity|].
  split; [apply not_In_by_argv; vm_compute; reflexivity|].
  split; [apply not_In_by_argv; vm_compute; reflexivity|].
  vm_compute. reflexivity.
Qed.

(** Without PKG_CONFIG_PATH the first run gets as far as the application
    build and ends with the TypeError. *)
Lemma C9_unset_pkg_config_path_witness :
  getenv Sim.environ_no_pkg_config "PKG_CONFIG_PATH" = None
  ∧ out (main_before_ardour Sim.isdir Sim.subprocess_run Sim.environ_no_pkg_config "/"
           Sim.fresh) = Ok tt
  ∧ out (sim_script Sim.environ_no_pkg_config Sim.fresh)
      = Raise (TypeError none_plus_str).
Proof.
  assert (Henv : getenv Sim.environ_no_pkg_config "PKG_CONFIG_PATH" = None)
    by (vm_compute; reflexivity).
  assert (Hok : out (main_before_ardour Sim.isdir Sim.subprocess_run
                       Sim.environ_no_pkg_config "/" Sim.fresh) = Ok tt)
    by (vm_compute; reflexivity).
  split; [exact Henv|]. split; [exact Hok|].
  exact (proj1 (proj2 (C9_unset_pkg_config_path Sim.isdir Sim.subprocess_run
                         Sim.environ_no_pkg_config "/" ";" Sim.fresh Henv) Hok)).
Defined.

(** The install command of the first run names required packages only. *)
Lemma C10_install_arguments_witness :
  let c := install_cmd (elements (SYSTEM_DEPENDENCIES
                                    ∖ installed_packages Sim.subprocess_run Sim.fresh)) in
  exists pkgs,
    argv c = ["pacman"; "-S"; "--noconfirm"; "--needed"] ++ pkgs
    ∧ pkgs ≠ []
    ∧ (forall p, p ∈ pkgs -> p ∈ SYSTEM_DEPENDENCIES)
    ∧ ("" ∉ pkgs).
Proof.
  intros c.
  assert (Hin : In c (commands (trace (install_package_deps Sim.subprocess_run Sim.fresh))))
    by (apply (nth_error_In _ 1); vm_compute; reflexivity).
  assert (Hinstall : is_install c = true) by reflexivity.
  exact (C10_install_arguments Sim.subprocess_run Sim.fresh c Hin Hinstall).
Defined.

(** ** The further properties on the simulated machine *)

(** The package query on the fresh machine exits with status 0 and its
    (empty) output is captured. *)
Lemma run_returns_witness :
  out (run Sim.subprocess_run ["pacman"; "-Qq"] None None true Sim.fresh)
    = Ok (mkCompleted 0 (Some "")).
Proof.
  pose proof (run_returns_iff_zero Sim.subprocess_run ["pacman"; "-Qq"] None None true
                Sim.fresh) as H.
  cbv zeta in H. apply (proj2 (proj1 H _)). split; vm_compute; reflexivity.
Defined.

(** Both autotools steps succeed on the fresh machine. *)
Lemma ac_steps_witness :
  out (ac Sim.subprocess_run Sim.environ_ok "deps/liblo" Sim.fresh) = Ok tt.
Proof.
  pose proof (ac_steps Sim.isdir Sim.subprocess_run Sim.environ_ok "deps/liblo" Sim.fresh) as H.
  cbv zeta in H. destruct H as (_ & _ & _ & H & _).
  assert (Hzero : Forall (fun x : Cmd * Z => x.2 = 0)
                    (executed (trace (ac Sim.subprocess_run Sim.environ_ok "deps/liblo"
                                        Sim.fresh))))
    by (vm_compute; repeat constructor).
  exact (proj1 (H Hzero)).
Defined.

(** A machine on which the package query exits with status 1. *)
Local Abbreviation query_fails := (Sim.fresh_failing [["pacman"; "-Qq"]]).

(** The failing package query was announced on the line before it. *)
Lemma every_process_is_announced_witness :
  exists pre',
    [EPrint (String "027" ("[96mChecking packages..." +:+ String "027" "[0m"));
     EPrint (String "027" ("[94m> pacman -Qq" +:+ String "027" "[0m"))]
      = pre' ++ [EPrint (String "027" ("[94m> pacman -Qq" +:+ String "027" "[0m"))].
Proof.
  refine (every_process_is_announced Sim.isdir Sim.subprocess_run Sim.environ_ok "/" ";"
            query_fails _ (mkCmd ["pacman"; "-Qq"] None None true) 1
            [EPrint (String "027" ("[91m"
               +:+ String "010" ("Failed to run subprocess (exit code 1):"
                                   +:+ String "010" "pacman -Qq")
               +:+ String "027" "[0m"))] _).
  vm_compute. reflexivity.
Defined.

(** With deps/aubio present, [clone] starts nothing. *)
Lemma clone_directory_name_witness :
  commands (trace (clone Sim.isdir Sim.subprocess_run "/" aubio "deps"
                     (Sim.mkWorld ["deps/aubio"] [] []))) = [].
Proof.
  pose proof (clone_directory_name Sim.isdir Sim.subprocess_run "/" aubio "deps"
                (Sim.mkWorld ["deps/aubio"] [] [])) as H.
  cbv zeta in H. destruct H as (_ & _ & _ & H).
  apply (proj2 H). vm_compute. reflexivity.
Defined.

(** In a MINGW64 shell the check passes silently. *)
Lemma right_shell_witness :
  check_shell Sim.environ_ok Sim.fresh = mkRes (Ok tt) Sim.fresh [].
Proof.
  assert (H : getenv Sim.environ_ok "MSYSTEM" = Some "MINGW64") by (vm_compute; reflexivity).
  exact (proj1 (proj2 (right_shell_starts_with_query Sim.isdir Sim.subprocess_run
                         Sim.environ_ok "/" ";" Sim.fresh) H)).
Defined.

(** On the fresh machine the query reports nothing, so everything is
    installed. *)
Lemma install_everything_witness :
  exists pkgs,
    commands (trace (install_package_deps Sim.subprocess_run Sim.fresh))
      = [query_cmd; install_cmd pkgs]
    ∧ length pkgs = 95%nat.
Proof.
  assert (Hrc : (Sim.subprocess_run query_cmd Sim.fresh).1.1 = 0) by reflexivity.
  assert (Hnone : forall p, p ∈ SYSTEM_DEPENDENCIES ->
                            p ∉ installed_packages Sim.subprocess_run Sim.fresh).
  { intros p Hp Hin.
    change (installed_packages Sim.subprocess_run Sim.fresh)
      with (list_to_set [""] : gset string) in Hin.
    apply elem_of_list_to_set, list_elem_of_singleton in Hin. subst p.
    exact (empty_not_required Hp). }
  destruct (install_everything_on_clean_system Sim.subprocess_run Sim.fresh Hrc Hnone)
    as (pkgs & Hc & _ & _ & Hlen).
  exists pkgs. split; [exact Hc|exact Hlen].
Defined.

(** A machine on which every required package is installed: the installer
    prints three lines. *)
Local Abbreviation all_packages_installed := (Sim.mkWorld [] SYSTEM_DEPENDENCIES_list []).

Lemma installer_console_report_witness :
  printed (trace (install_package_deps Sim.subprocess_run all_packages_installed))
    = [String "027" ("[96mChecking packages..." +:+ String "027" "[0m");
       String "027" ("[94m> pacman -Qq" +:+ String "027" "[0m");
       String "027" ("[96mAll system dependencies have already been installed."
                       +:+ String "027" "[0m")].
Proof.
  pose proof (installer_console_report Sim.subprocess_run all_packages_installed) as H.
  cbv zeta in H. destruct H as (_ & H & _).
  apply H; [reflexivity|].
  intros p Hp. apply split_is_piece.
  unfold SYSTEM_DEPENDENCIES in Hp. apply elem_of_list_to_set, list_elem_of_In in Hp.
  assert (Hall : forallb (fun q => existsb (String.eqb q)
                            (Py.split "010"
                               (Sim.subprocess_run (mkCmd ["pacman"; "-Qq"] None None true)
                                  all_packages_installed).1.2))
                   SYSTEM_DEPENDENCIES_list = true) by (vm_compute; reflexivity).
  rewrite forallb_forall in Hall.
  specialize (Hall p Hp). apply existsb_exists in Hall as (x & Hx & Heq).
  apply String.eqb_eq in Heq. now subst x.
Defined.

(** The application build on the fresh machine extends PKG_CONFIG_PATH. *)
Lemma build_ardour_command_witness :
  exists cmd rc merged,
    executed (trace (build_ardour Sim.subprocess_run Sim.environ_ok ";" Sim.fresh))
      = [(cmd, rc)]
    ∧ env cmd = Some merged
    ∧ merged !! "PKG_CONFIG_PATH"
        = Some ("/mingw64/lib/pkgconfig" +:+ ";" +:+ "C:\mingw64\lib\pkgconfig").
Proof.
  assert (H : getenv Sim.environ_ok "PKG_CONFIG_PATH" = Some "/mingw64/lib/pkgconfig")
    by (vm_compute; reflexivity).
  destruct (build_ardour_command Sim.subprocess_run Sim.environ_ok ";"
              "/mingw64/lib/pkgconfig" Sim.fresh H)
    as (cmd & rc & merged & Hex & _ & _ & Henv & Hpath & _).
  exists cmd, rc, merged. split; [exact Hex|]. split; [exact Henv|exact Hpath].
Defined.

(** A machine on which only deps/aubio exists: the second check alone
    answers yes, the fetcher returns, and it starts the other seven clones
    and their six patches, nothing for aubio. *)
Local Abbreviation aubio_present := (Sim.mkWorld ["deps/aubio"] [] []).

Lemma fetch_libraries_plan_witness :
  fetch_answers Sim.isdir Sim.subprocess_run "/" CHECKOUT_NAMES FETCH_LIST aubio_present
    = [false; true; false; false; false; false; false; false]
  ∧ out (fetch_libraries Sim.isdir Sim.subprocess_run "/" aubio_present) = Ok tt
  ∧ map argv (commands (trace (fetch_libraries Sim.isdir Sim.subprocess_run "/"
                                 aubio_present)))
      = [["git"; "clone"; "--recurse-submodules"; "https://github.com/jackaudio/jack2"];
         ["git"; "clone"; "--recurse-submodules"; "https://github.com/radarsat1/liblo"];
         ["git"; "clone"; "--recurse-submodules"; "https://github.com/x42/libltc"];
         ["git"; "clone"; "--recurse-submodules"; "https://github.com/swh/LRDF"];
         ["patch"; "-i"; "patches/lrdf_types.h.patch"; "-p0"];
         ["git"; "clone"; "--recurse-submodules"; "https://github.com/dajobe/raptor"];
         ["patch"; "-i"; "patches/sort_r.h.patch"; "-p0"];
         ["git"; "clone"; "--recurse-submodules"; "https://github.com/lv2/lv2kit"];
         ["patch"; "-i"; "patches/win_in_gtk2.cpp.patch"; "-p0"];
         ["git"; "clone"; "--recurse-submodules"; "git://git.ardour.org/ardour/ardour"];
         ["patch"; "-i"; "patches/ardour-wscript.patch"; "-p0"];
         ["patch"; "-i"; "patches/main.cc.patch"; "-p0"];
         ["patch"; "-i"; "patches/pbd.cc.patch"; "-p0"]].
Proof.
  pose proof (fetch_libraries_plan Sim.isdir Sim.subprocess_run "/" aubio_present) as H.
  cbv zeta in H. destruct H as (_ & _ & H).
  assert (Hzero : Forall (fun x : Cmd * Z => x.2 = 0)
                    (executed (trace (fetch_libraries Sim.isdir Sim.subprocess_run "/"
                                        aubio_present))))
    by (vm_compute; repeat constructor).
  destruct (H Hzero) as [Hout Hcommands].
  split; [vm_compute; reflexivity|]. split; [exact Hout|].
  rewrite Hcommands. vm_compute. reflexivity.
Defined.

(** The first process of the first run is a listed command. *)
Lemma only_listed_commands_witness :
  script_command Sim.environ_ok "/" ";" query_cmd.
Proof.
  assert (Hin : In query_cmd (commands (trace (sim_script Sim.environ_ok Sim.fresh))))
    by (apply (nth_error_In _ 0); vm_compute; reflexivity).
  exact (proj1 (only_listed_commands Sim.isdir Sim.subprocess_run Sim.environ_ok "/" ";"
                  Sim.fresh query_cmd Hin)).
Defined.

(** The application build of the first run comes after everything else
    returned. *)
Lemma ardour_build_after_library_builds_witness :
  out (main_before_ardour Sim.isdir Sim.subprocess_run Sim.environ_ok "/" Sim.fresh) = Ok tt.
Proof.
  set (c := waf_cmd Sim.environ_ok [ArgList ARDOUR_OPTIONS] "deps/ardour" "waf"
              {[ "PKG_CONFIG_PATH" := "/mingw64/lib/pkgconfig" +:+ ";"
                                        +:+ "C:\mingw64\lib\pkgconfig" ]} true true).
  assert (Hin : In (c, 0) (executed (trace (sim_script Sim.environ_ok Sim.fresh))))
    by (apply (nth_error_In _ 31); vm_compute; reflexivity).
  assert (Hcwd : cwd c = Some "deps/ardour") by reflexivity.
  exact (proj1 (ardour_build_after_library_builds Sim.isdir Sim.subprocess_run
                  Sim.environ_ok "/" ";" Sim.fresh c 0 Hin Hcwd)).
Defined.

(** The run on which [make install] fails ends with the error of that
    process, which is the last one started. *)
Lemma ardent_error_origin_witness :
  exists c rc earlier,
    executed (trace (sim_script Sim.environ_ok make_fails)) = earlier ++ [(c, rc)]
    ∧ rc ≠ 0
    ∧ String "010" ("Failed to run subprocess (exit code 1):"
                      +:+ String "010" "make install")
        = String "010" ("Failed to run subprocess (exit code "
                          +:+ NilZero.string_of_int (Z.to_int rc) +:+ "):"
                          +:+ String "010" (String.concat " " (argv c))).
Proof.
  assert (H : out (sim_script Sim.environ_ok make_fails)
                = Raise (ArdentError
                    (String "010" ("Failed to run subprocess (exit code 1):"
                                     +:+ String "010" "make install"))))
    by (vm_compute; reflexivity).
  destruct (ardent_error_origin Sim.isdir Sim.subprocess_run Sim.environ_ok "/" ";"
              make_fails _ H) as [_ [(Hshell & _)|Hproc]].
  - exfalso. apply Hshell. vm_compute. reflexivity.
  - exact Hproc.
Defined.
